(** * Pocket-Pal voice assistant: a shallow embedding of [assistant.py]

    The script is sequential glue code around external services (HTTP,
    microphone, audio player).  Every external call is modelled by an
    outcome supplied by an environment record, every observable action by
    an event appended to the output trace, and Python's control effects
    (exceptions, [exit()]) by a small state-and-error monad.

    Conventions.
    - Strings are [string] (sequences of 8-bit characters); [str.lower]
      acts on the ASCII letters.
    - [exn] stands for instances of Python's [Exception] class, which is
      what the [except] clauses of the script name.  [exit()] raises
      [SystemExit], which is not an [Exception]: it is the separate
      outcome [SysExit] and passes through every handler of the script. *)

From Stdlib Require Import String Ascii List Bool Arith Lia ZArith.
Import ListNotations.
Local Open Scope list_scope.
Local Open Scope string_scope.
Set Warnings "-register-all".

(** ** Strings *)

Module PyStr.

(** [sub in s] for two [str] values: [sub] occurs in [s] as a contiguous
    substring, compared character by character (case-sensitive). *)
Fixpoint str_in (sub s : string) : bool :=
  String.prefix sub s ||
  match s with
  | EmptyString => false
  | String _ s' => str_in sub s'
  end.

Definition is_upper (c : ascii) : bool :=
  ((65 <=? nat_of_ascii c) && (nat_of_ascii c <=? 90))%nat.

Definition lower_char (c : ascii) : ascii :=
  if is_upper c then ascii_of_nat (nat_of_ascii c + 32) else c.

(** [s.lower()] *)
Fixpoint lower (s : string) : string :=
  match s with
  | EmptyString => EmptyString
  | String c s' => String (lower_char c) (lower s')
  end.


Definition digit (d : nat) : ascii := ascii_of_nat (48 + d).

(** A field printed by [strftime] with two zero-padded decimal digits. *)
Definition two_digits (n : nat) : string :=
  String (digit (n / 10)) (String (digit (n mod 10)) EmptyString).

End PyStr.
Export PyStr.

(** ** Python values *)

(** The values that can come out of [response.json()] and be stored in
    [VOICE_ID].  A [dict] is an association list; the keys of a Python
    dict are unique, so [lookup] finds the one binding of a key. *)
Inductive pyval : Type :=
| PyNone
| PyBool (b : bool)
| PyInt (z : Z)
| PyStr (s : string)
| PyList (l : list pyval)
| PyDict (d : list (string * pyval)).

(** Truth value of an object, as tested by [if not x]. *)
Definition truthy (v : pyval) : bool :=
  match v with
  | PyNone => false
  | PyBool b => b
  | PyInt z => negb (z =? 0)%Z
  | PyStr s => negb (s =? "")
  | PyList l => match l with [] => false | _ => true end
  | PyDict d => match d with [] => false | _ => true end
  end.

Definition is_None (v : pyval) : bool :=
  match v with PyNone => true | _ => false end.

Fixpoint lookup (k : string) (d : list (string * pyval)) : option pyval :=
  match d with
  | [] => None
  | (k', v) :: d' => if (k =? k') then Some v else lookup k d'
  end.

(** ** Exceptions *)

Inductive exn_class : Type :=
| CException            (* any other subclass of Exception *)
| CRequestException     (* requests.exceptions.RequestException *)
| CHTTPError            (* requests.exceptions.HTTPError *)
| COSError
| CFileNotFoundError
| CJSONDecodeError      (* json.JSONDecodeError *)
| CTypeError
| CPlaysoundException   (* playsound.PlaysoundException *)
| CUnknownValueError    (* speech_recognition.UnknownValueError *)
| CRequestError.        (* speech_recognition.RequestError *)

Definition exn_class_eqb (c d : exn_class) : bool :=
  match c, d with
  | CException, CException | CRequestException, CRequestException
  | CHTTPError, CHTTPError | COSError, COSError
  | CFileNotFoundError, CFileNotFoundError
  | CJSONDecodeError, CJSONDecodeError | CTypeError, CTypeError
  | CPlaysoundException, CPlaysoundException
  | CUnknownValueError, CUnknownValueError
  | CRequestError, CRequestError => true
  | _, _ => false
  end.

(** [issubclass c d] on the classes above. *)
Definition subclass (c d : exn_class) : bool :=
  match d with
  | CException => true
  | CRequestException =>
      match c with CRequestException | CHTTPError => true | _ => false end
  | COSError =>
      match c with COSError | CFileNotFoundError => true | _ => false end
  | _ => exn_class_eqb c d
  end.

Record exn : Type := mk_exn { cls : exn_class; msg : string }.

Definition isinstance (e : exn) (c : exn_class) : bool := subclass (cls e) c.

(** ** Events, world and the monad *)

(** What the script does that can be observed from outside (prints,
    requests, playback), and the entries into its own functions
    ([Call_...], with the arguments that matter). *)
Inductive event : Type :=
| Print (s : string)                      (* print of a string *)
| PrintVal (s : string) (v : pyval)       (* print of f"{s}{v}" *)
| HttpGet (url : string)
| HttpPostVoice (url name : string)
| HttpPostTTS (voice_id : pyval) (text : string)
| Playsound
| Call_create_custom_voice
| Call_text_to_speech (text : string) (voice_id : pyval)
| Call_play_audio_from_stream
| Call_use_pyttsx3
| Call_listen
| Call_process_command (query : string).

Record world : Type := mk_world {
  VOICE_ID : pyval;          (* the module-level global *)
  voice_sample : bool;       (* does voice_sample.mp3 exist *)
  alternative_tts : bool;    (* does alternative_tts.mp3 exist *)
  out : list event           (* what happened so far, oldest first *)
}.

Inductive outcome (A : Type) : Type :=
| Return (a : A)
| Raise (e : exn)
| SysExit.
Arguments Return {A} a.
Arguments Raise {A} e.
Arguments SysExit {A}.

Definition M (A : Type) : Type := world -> outcome A * world.

Definition ret {A} (a : A) : M A := fun w => (Return a, w).

Definition bind {A B} (m : M A) (k : A -> M B) : M B :=
  fun w =>
    match m w with
    | (Return a, w') => k a w'
    | (Raise e, w') => (Raise e, w')
    | (SysExit, w') => (SysExit, w')
    end.

Declare Scope py_scope.
Delimit Scope py_scope with py.
Notation "x <- m ;; k" := (bind m (fun x => k))
  (at level 61, m at next level, right associativity) : py_scope.
Notation "m ;; k" := (bind m (fun _ => k))
  (at level 61, right associativity) : py_scope.
Local Open Scope py_scope.

Definition raise {A} (e : exn) : M A := fun w => (Raise e, w).

(** [exit()] *)
Definition sys_exit {A} : M A := fun w => (SysExit, w).

Definition emit (e : event) : M unit :=
  fun w => (Return tt,
            mk_world (VOICE_ID w) (voice_sample w) (alternative_tts w)
                     (out w ++ [e])).

Definition print (s : string) : M unit := emit (Print s).

Definition get_VOICE_ID : M pyval := fun w => (Return (VOICE_ID w), w).

Definition set_VOICE_ID (v : pyval) : M unit :=
  fun w => (Return tt,
            mk_world v (voice_sample w) (alternative_tts w) (out w)).

Definition exists_voice_sample : M bool :=
  fun w => (Return (voice_sample w), w).

Definition set_voice_sample (b : bool) : M unit :=
  fun w => (Return tt,
            mk_world (VOICE_ID w) b (alternative_tts w) (out w)).

Definition exists_alternative_tts : M bool :=
  fun w => (Return (alternative_tts w), w).

Definition set_alternative_tts (b : bool) : M unit :=
  fun w => (Return tt,
            mk_world (VOICE_ID w) (voice_sample w) b (out w)).

(** An external call that either succeeds or raises what the environment
    says. *)
Definition may_raise (err : option exn) : M unit :=
  match err with
  | Some e => raise e
  | None => ret tt
  end.

Definition handler (A : Type) : Type := (exn_class * (exn -> M A))%type.

(** [try: body / except C1 as e: h1 / except C2 as e: h2 ...]: the first
    clause whose class the exception is an instance of runs; an exception
    raised inside a clause is not offered to the later clauses; [SysExit]
    is offered to none. *)
Definition try_except {A} (body : M A) (handlers : list (handler A)) : M A :=
  fun w =>
    match body w with
    | (Raise e, w') =>
        match find (fun h => isinstance e (fst h)) handlers with
        | Some h => snd h e w'
        | None => (Raise e, w')
        end
    | r => r
    end.

(** ** The external services *)

Record response : Type := mk_response {
  status_code : nat;
  content : exn + string;      (* reading response.content, the body bytes *)
  json_body : exn + pyval      (* what response.json() does *)
}.

(** A call of [requests.get] or [requests.post]: it raises (a connection
    problem) or returns a response. *)
Inductive http_result : Type :=
| HttpRaise (e : exn)
| HttpResp (r : response).

Definition http (ev : event) (res : http_result) : M response :=
  emit ev;;
  match res with
  | HttpRaise e => raise e
  | HttpResp r => ret r
  end.

(** [response.raise_for_status()]: [HTTPError] for a 4xx or 5xx status. *)
Definition raise_for_status (r : response) : M unit :=
  if ((400 <=? status_code r) && (status_code r <? 600))%nat
  then raise (mk_exn CHTTPError "HTTPError")
  else ret tt.

Definition response_content (r : response) : M string :=
  match content r with
  | inl e => raise e
  | inr bytes => ret bytes
  end.

Definition response_json (r : response) : M pyval :=
  match json_body r with
  | inl e => raise e
  | inr v => ret v
  end.

(** [k in v] for a string [k]: key membership for a dict, element
    membership for a list, substring for a str, [TypeError] otherwise. *)
Definition py_in (k : string) (v : pyval) : M bool :=
  match v with
  | PyDict d => ret (match lookup k d with Some _ => true | None => false end)
  | PyList l =>
      ret (existsb (fun x => match x with PyStr s => (s =? k) | _ => false end) l)
  | PyStr s => ret (str_in k s)
  | _ => raise (mk_exn CTypeError "argument is not iterable")
  end.

(** [v[k]] for a string [k]. *)
Definition py_getitem (v : pyval) (k : string) : M pyval :=
  match v with
  | PyDict d =>
      match lookup k d with
      | Some x => ret x
      | None => raise (mk_exn CException "KeyError")
      end
  | _ => raise (mk_exn CTypeError "indices must be integers")
  end.

Definition IPFS_VOICE_URL : string :=
  "https://ipfs.io/ipfs/bafybeiczarcv4ccnfnba73i5pj3s3oe726sotl5ybmqnnmtx4ah7h4djri".
Definition VOICE_NAME : string := "My Custom Voice".

(** ** [create_custom_voice] *)

Record voice_env : Type := mk_voice_env {
  get_result : http_result;       (* requests.get(IPFS_VOICE_URL) *)
  open_wb_err : option exn;       (* open("voice_sample.mp3", "wb") *)
  write_err : option exn;         (* f.write(response.content) *)
  open_rb_err : option exn;       (* open("voice_sample.mp3", "rb") *)
  post_result : http_result;      (* requests.post(url, ...) *)
  remove_err : option exn         (* os.remove("voice_sample.mp3") *)
}.

Definition file_not_found : exn := mk_exn CFileNotFoundError "No such file".

(** Opening for writing creates the file. *)
Definition open_wb_voice_sample (err : option exn) : M unit :=
  may_raise err;; set_voice_sample true.

Definition open_rb_voice_sample (err : option exn) : M unit :=
  there <- exists_voice_sample;;
  if there then may_raise err else raise file_not_found.

Definition os_remove_voice_sample (err : option exn) : M unit :=
  there <- exists_voice_sample;;
  if there then may_raise err;; set_voice_sample false
  else raise file_not_found.

(** The [try] block of [create_custom_voice]. *)
Definition create_custom_voice_try (env : voice_env) : M pyval :=
  response <- http (HttpGet IPFS_VOICE_URL) (get_result env);;
  raise_for_status response;;
  open_wb_voice_sample (open_wb_err env);;
  _ <- response_content response;;
  may_raise (write_err env);;
  open_rb_voice_sample (open_rb_err env);;
  response <- http (HttpPostVoice "https://api.elevenlabs.io/v1/voices/add"
                                  VOICE_NAME)
                   (post_result env);;
  raise_for_status response;;
  voice_data <- response_json response;;
  has <- py_in "voice_id" voice_data;;
  (if has
   then v <- py_getitem voice_data "voice_id";;
        set_VOICE_ID v;;
        emit (PrintVal "Custom voice created with ID: " v)
   else emit (PrintVal "Error creating voice: " voice_data);;
        sys_exit);;
  os_remove_voice_sample (remove_err env);;
  get_VOICE_ID.

(** Its [except] clauses; each one prints and falls through to the final
    [return None]. *)
Definition create_custom_voice_except : list (handler pyval) :=
  [ (CRequestException,
      fun e => print ("Error during request: " ++ msg e);; ret PyNone);
    (CFileNotFoundError,
      fun _ => print "Error: voice_sample.mp3 not found.";; ret PyNone);
    (CJSONDecodeError,
      fun _ => print "Error: Invalid JSON response from ElevenLabs API.";;
               ret PyNone);
    (CException,
      fun e => print ("An unexpected error occurred: " ++ msg e);;
               ret PyNone) ].

Definition create_custom_voice (env : voice_env) : M pyval :=
  emit Call_create_custom_voice;;
  try_except (create_custom_voice_try env) create_custom_voice_except.

(** ** [use_pyttsx3], [play_audio_from_stream], [text_to_speech] *)

Record pyttsx3_env : Type := mk_pyttsx3_env {
  init_err : option exn;          (* pyttsx3.init() *)
  save_err : option exn;          (* engine.save_to_file(...) *)
  run_err : option exn;           (* engine.runAndWait() *)
  alt_open_err : option exn;      (* open("alternative_tts.mp3", "wb") *)
  alt_write_err : option exn;     (* f.write(audio_stream) *)
  alt_remove_err : option exn     (* os.remove("alternative_tts.mp3") *)
}.

Definition use_pyttsx3 (audio_stream : string) (env : pyttsx3_env) : M unit :=
  emit Call_use_pyttsx3;;
  try_except
    (may_raise (init_err env);;
     may_raise (save_err env);;
     may_raise (run_err env);;
     set_alternative_tts true;;
     may_raise (alt_open_err env);;
     set_alternative_tts true;;
     may_raise (alt_write_err env);;
     there <- exists_alternative_tts;;
     if there then may_raise (alt_remove_err env);; set_alternative_tts false
     else raise file_not_found)
    [ (CException,
        fun e => print ("Error playing audio with pyttsx3: " ++ msg e)) ].

Record play_env : Type := mk_play_env {
  tmpfile_err : option exn;       (* NamedTemporaryFile, write, flush *)
  playsound_err : option exn;     (* playsound.playsound(..., block=False) *)
  fallback : pyttsx3_env
}.

Definition play_audio_from_stream (audio_stream : string) (env : play_env)
  : M unit :=
  emit Call_play_audio_from_stream;;
  try_except
    (may_raise (tmpfile_err env);;
     emit Playsound;;
     may_raise (playsound_err env))
    [ (CPlaysoundException,
        fun e => print ("Error playing audio with playsound: " ++ msg e);;
                 use_pyttsx3 audio_stream (fallback env));
      (CException,
        fun e => print ("An unexpected error occurred during audio playback: "
                        ++ msg e)) ].

Record tts_env : Type := mk_tts_env {
  tts_result : http_result;       (* requests.post(url, ..., stream=True) *)
  player : play_env
}.

Definition text_to_speech (text : string) (voice_id : pyval) (env : tts_env)
  : M unit :=
  emit (Call_text_to_speech text voice_id);;
  if is_None voice_id then print "Error: No voice ID provided."
  else
    try_except
      (response <- http (HttpPostTTS voice_id text) (tts_result env);;
       raise_for_status response;;
       audio <- response_content response;;
       play_audio_from_stream audio (player env))
      [ (CRequestException,
          fun e => print ("Error during TTS request: " ++ msg e));
        (CException,
          fun e => print ("An unexpected error occurred during TTS: "
                          ++ msg e)) ].

(** ** [listen] *)

Record listen_env : Type := mk_listen_env {
  mic_open_err : option exn;      (* with sr.Microphone() as source *)
  capture_err : option exn;       (* adjust_for_ambient_noise, listen *)
  recognized : exn + string       (* recognizer.recognize_google(audio) *)
}.

Definition recognize_google (res : exn + string) : M string :=
  match res with
  | inl e => raise e
  | inr q => ret q
  end.

Definition newline : string := String (ascii_of_nat 10) EmptyString.

Definition listen (env : listen_env) : M string :=
  emit Call_listen;;
  may_raise (mic_open_err env);;
  print "Listening...";;
  may_raise (capture_err env);;
  try_except
    (print "Recognizing...";;
     query <- recognize_google (recognized env);;
     print ("User said: " ++ query ++ newline);;
     ret (lower query))
    [ (CUnknownValueError,
        fun _ => print "Sorry, I could not understand.";; ret "");
      (CRequestError,
        fun e => print ("Could not request results from Google Speech Recognition service; "
                        ++ msg e);;
                 ret "") ].

(** ** [process_command] *)

Record datetime : Type := mk_datetime { hour : nat; minute : nat }.

(** [now.strftime('%I:%M %p')]: the hour on the 12-hour clock and the
    minute, each with two digits, then AM or PM. *)
Definition strftime_I_M_p (now : datetime) : string :=
  two_digits (if (hour now mod 12 =? 0)%nat then 12 else hour now mod 12)
  ++ ":" ++ two_digits (minute now) ++ " "
  ++ (if (hour now <? 12)%nat then "AM" else "PM").

Definition process_command (query : string) (now : datetime) (env : tts_env)
  : M bool :=
  emit (Call_process_command query);;
  if str_in "hello" query then
    v <- get_VOICE_ID;;
    text_to_speech "Hello! How can I help you?" v env;;
    ret false
  else if str_in "what is the time" query then
    v <- get_VOICE_ID;;
    text_to_speech ("The time is " ++ strftime_I_M_p now) v env;;
    ret false
  else if str_in "exit" query || str_in "quit" query || str_in "stop" query
  then
    v <- get_VOICE_ID;;
    text_to_speech "Goodbye!" v env;;
    ret true
  else
    v <- get_VOICE_ID;;
    text_to_speech "I'm sorry, I don't understand that yet." v env;;
    ret false.

(** ** Main execution *)

(** What one turn of [while True] meets. *)
Record iter_env : Type := mk_iter_env {
  heard : listen_env;
  clock : datetime;
  reply : tts_env
}.

(** How an observed run stands: the loop was left by [break], or it is
    still running after the turns observed so far. *)
Inductive run : Type := Broke | Running.

Fixpoint main_loop (turns : list iter_env) : M run :=
  match turns with
  | [] => ret Running
  | t :: rest =>
      command <- listen (heard t);;
      if negb (command =? "") then
        should_exit <- process_command command (clock t) (reply t);;
        if should_exit then ret Broke else main_loop rest
      else main_loop rest
  end.

Record main_env : Type := mk_main_env {
  ELEVENLABS_API_KEY : option string;   (* os.environ.get(...) *)
  provisioning : voice_env;
  greeting : tts_env;
  turns : list iter_env
}.

Definition key_missing (k : option string) : bool :=
  match k with
  | None => true
  | Some s => (s =? "")
  end.

Definition main (env : main_env) : M run :=
  (if key_missing (ELEVENLABS_API_KEY env)
   then print "Error: ElevenLabs API key not found in environment variables.";;
        sys_exit
   else ret tt);;
  v0 <- get_VOICE_ID;;
  (if negb (truthy v0) then
     v <- create_custom_voice (provisioning env);;
     set_VOICE_ID v;;
     if negb (truthy v)
     then print "Failed to create custom voice. Exiting.";; sys_exit
     else ret tt
   else ret tt);;
  v <- get_VOICE_ID;;
  text_to_speech
    "Hello, I am your custom voice assistant. How can I help you today?"
    v (greeting env);;
  main_loop (turns env).

(** The state in which the script starts: [VOICE_ID = None], nothing
    printed yet; the two files may be left over from an earlier run. *)
Definition initial (sample alt : bool) : world :=
  mk_world PyNone sample alt [].


(** * Specification vocabulary *)

(** ** Containment *)

(** [sub] occurs in [s]. *)
Definition contains (sub s : string) : Prop :=
  exists pre post, s = pre ++ sub ++ post.

(** Containment whatever the letter case: some stretch of [s] reads [sub]
    once lower-cased. *)
Definition contains_any_case (sub s : string) : Prop :=
  exists pre mid post, s = pre ++ mid ++ post /\ lower mid = sub.


(** ** What a trace shows *)

(** The calls of [text_to_speech], with their arguments, in order. *)
Definition spoken (l : list event) : list (string * pyval) :=
  flat_map (fun e => match e with
                     | Call_text_to_speech t v => [(t, v)]
                     | _ => []
                     end) l.

(** The calls of [process_command], with their argument, in order. *)
Definition dispatched (l : list event) : list string :=
  flat_map (fun e => match e with
                     | Call_process_command q => [q]
                     | _ => []
                     end) l.

Definition is_request (e : event) : bool :=
  match e with
  | HttpGet _ | HttpPostVoice _ _ | HttpPostTTS _ _ => true
  | _ => false
  end.

(** The network requests made. *)
Definition requests (l : list event) : list event := filter is_request l.

Definition is_fallback (e : event) : bool :=
  match e with Call_use_pyttsx3 => true | _ => false end.

(** How many times [use_pyttsx3] was called. *)
Definition fallbacks (l : list event) : nat := length (filter is_fallback l).

Definition is_listen (e : event) : bool :=
  match e with Call_listen => true | _ => false end.

(** How many times [listen] was called. *)
Definition listens (l : list event) : nat := length (filter is_listen l).

(** Events below the level of the script's own functions: prints, the
    player, the fallback. *)
Definition is_low (e : event) : bool :=
  match e with
  | Print _ | PrintVal _ _ | Playsound
  | Call_play_audio_from_stream | Call_use_pyttsx3 => true
  | _ => false
  end.

(** Events of the provisioning step: its two requests and its prints. *)
Definition is_provisioning (e : event) : bool :=
  match e with
  | Print _ | PrintVal _ _ | HttpGet _ | HttpPostVoice _ _ => true
  | _ => false
  end.

(** ** Shapes of behaviour *)

(** The exception, if any, that leaves the [try] body of
    [play_audio_from_stream]. *)
Definition primary_exn (env : play_env) : option exn :=
  match tmpfile_err env with
  | Some e => Some e
  | None => playsound_err env
  end.

Definition expected_fallbacks (env : play_env) : nat :=
  match primary_exn env with
  | Some e => if isinstance e CPlaysoundException then 1 else 0
  | None => 0
  end.

(** What [text_to_speech] adds to the trace after the record of its own
    call: the complaint about a missing voice, or one request followed by
    prints and player events. *)
Definition tts_tail (text : string) (v : pyval) (l : list event) : Prop :=
  (is_None v = true /\ l = [Print "Error: No voice ID provided."])
  \/ (is_None v = false
      /\ exists l', l = HttpPostTTS v text :: l' /\ forallb is_low l' = true).

(** The branch of [process_command] that fires: what is said and what is
    returned. *)
Definition chosen (query : string) (now : datetime) : string * bool :=
  if str_in "hello" query then ("Hello! How can I help you?", false)
  else if str_in "what is the time" query
  then ("The time is " ++ strftime_I_M_p now, false)
  else if str_in "exit" query || str_in "quit" query || str_in "stop" query
  then ("Goodbye!", true)
  else ("I'm sorry, I don't understand that yet.", false).

(** The provider answered the upload with a JSON object that has no
    [voice_id] field. *)
Definition lacks_voice_id (env : voice_env) : Prop :=
  exists r d, post_result env = HttpResp r
              /\ json_body r = inr (PyDict d)
              /\ lookup "voice_id" d = None.

(** Provisioning did not produce a usable voice identifier. *)
Definition provisioning_failed (env : voice_env) (w : world) : Prop :=
  forall v w', create_custom_voice env w = (Return v, w') -> truthy v = false.

(** ** Sample environments *)

Definition no_json : exn + pyval := inl (mk_exn CJSONDecodeError "no JSON").

Definition silent_fallback : pyttsx3_env :=
  mk_pyttsx3_env None None None None None None.

Definition working_player : play_env := mk_play_env None None silent_fallback.

Definition broken_player : play_env :=
  mk_play_env None (Some (mk_exn CPlaysoundException "cannot play"))
              silent_fallback.

Definition working_tts : tts_env :=
  mk_tts_env (HttpResp (mk_response 200 (inr "mp3 bytes") no_json)) working_player.

Definition failing_tts : tts_env :=
  mk_tts_env (HttpResp (mk_response 503 (inr "") no_json)) working_player.

Definition sample_download : http_result :=
  HttpResp (mk_response 200 (inr "sample bytes") no_json).

(** The upload is answered with status 500. *)
Definition upload_rejected : voice_env :=
  mk_voice_env sample_download None None None
               (HttpResp (mk_response 500 (inr "") (inr (PyDict []))))
               None.

(** The upload is answered with a JSON object without [voice_id]. *)
Definition upload_without_voice_id : voice_env :=
  mk_voice_env sample_download None None None
               (HttpResp (mk_response 200 (inr "")
                            (inr (PyDict [("detail", PyStr "quota exceeded")]))))
               None.

Definition upload_accepted : voice_env :=
  mk_voice_env sample_download None None None
               (HttpResp (mk_response 200 (inr "")
                            (inr (PyDict [("voice_id", PyStr "v1")]))))
               None.

Definition silence : listen_env :=
  mk_listen_env None None (inl (mk_exn CUnknownValueError "")).

Definition noon : datetime := mk_datetime 12 0.

Definition started : world := mk_world (PyStr "v1") false false [].

(** ** Further vocabulary *)

(** A status for which [raise_for_status] raises. *)
Definition error_status (r : response) : bool :=
  ((400 <=? status_code r) && (status_code r <? 600))%nat.

(** The download of the voice sample did not give a usable response. *)
Definition download_failed (env : voice_env) : Prop :=
  (exists e, get_result env = HttpRaise e)
  \/ (exists r, get_result env = HttpResp r /\ error_status r = true).

Definition is_play (e : event) : bool :=
  match e with Call_play_audio_from_stream => true | _ => false end.

(** How many times [play_audio_from_stream] was called. *)
Definition plays (l : list event) : nat := length (filter is_play l).

(** One of the three exit words occurs in the utterance. *)
Definition has_exit_word (q : string) : Prop :=
  contains "exit" q \/ contains "quit" q \/ contains "stop" q.

(** A time of day as [datetime.now()] gives it. *)
Definition valid_time (t : datetime) : Prop := hour t < 24 /\ minute t < 60.

(** The exception, if any, with which [listen] ends: one raised while the
    microphone is opened or the audio captured, or one raised by the
    recognition call that is neither of the two classes [listen] handles. *)
Definition listen_escapes (env : listen_env) : option exn :=
  match mic_open_err env with
  | Some e => Some e
  | None =>
      match capture_err env with
      | Some e => Some e
      | None =>
          match recognized env with
          | inl e =>
              if isinstance e CUnknownValueError || isinstance e CRequestError
              then None else Some e
          | inr _ => None
          end
      end
  end.

(** The synthesis request was answered with a usable body. *)
Definition audio_received (env : tts_env) : bool :=
  match tts_result env with
  | HttpRaise _ => false
  | HttpResp r =>
      negb (error_status r)
      && match content r with inl _ => false | inr _ => true end
  end.

Definition upload_url : string := "https://api.elevenlabs.io/v1/voices/add".

(** The words with which the script opens. *)
Definition START_GREETING : string :=
  "Hello, I am your custom voice assistant. How can I help you today?".

(** ** Reading a spoken time back *)



(** Every character of [s] is an ASCII character (code below 128). *)
Definition all_ascii (s : string) : Prop :=
  forall c, In c (list_ascii_of_string s) -> nat_of_ascii c < 128.

(** No character of [s] is one of the capital letters A to Z. *)
Definition no_capital (s : string) : Prop :=
  forall c, In c (list_ascii_of_string s) ->
            ~ (65 <= nat_of_ascii c <= 90).

(** * Properties *)

(** ** Substrings and lower-casing *)

Section Strings.

Lemma prefix_app (a b : string) : String.prefix a (a ++ b) = true.
Proof.
  induction a as [|c a IH]; simpl.
  - destruct b; reflexivity.
  - destruct (ascii_dec c c) as [_|N]; [exact IH | now elim N].
Qed.

Lemma prefix_split (a s : string) :
  String.prefix a s = true -> exists post, s = a ++ post.
Proof.
  revert s; induction a as [|c a IH]; intros s H.
  - exists s; reflexivity.
  - destruct s as [|d s]; simpl in H; [discriminate|].
    destruct (ascii_dec c d) as [->|_]; [|discriminate].
    destruct (IH s H) as [post ->]. exists post; reflexivity.
Qed.

Lemma str_in_prefix (sub s : string) :
  String.prefix sub s = true -> str_in sub s = true.
Proof. intros H. destruct s; cbn [str_in]; rewrite H; reflexivity. Qed.

Lemma str_in_intro (sub pre post : string) :
  str_in sub (pre ++ sub ++ post) = true.
Proof.
  induction pre as [|c pre IH]; simpl.
  - apply str_in_prefix, prefix_app.
  - rewrite IH. apply orb_true_r.
Qed.

Lemma str_in_elim (sub s : string) :
  str_in sub s = true -> exists pre post, s = pre ++ sub ++ post.
Proof.
  induction s as [|c s IH]; cbn [str_in]; intros H.
  - rewrite orb_false_r in H. destruct (prefix_split _ _ H) as [post E].
    exists "", post. exact E.
  - apply orb_true_iff in H. destruct H as [H|H].
    + destruct (prefix_split _ _ H) as [post E]. exists "", post. exact E.
    + destruct (IH H) as (pre & post & ->). exists (String c pre), post.
      reflexivity.
Qed.

(** [sub in s] is substring containment. *)
Lemma str_in_spec (sub s : string) :
  str_in sub s = true <-> exists pre post, s = pre ++ sub ++ post.
Proof.
  split; [apply str_in_elim|]. intros (pre & post & ->). apply str_in_intro.
Qed.

Lemma lower_app (a b : string) : lower (a ++ b) = lower a ++ lower b.
Proof. induction a as [|c a IH]; simpl; [|rewrite IH]; reflexivity. Qed.

Lemma lower_contains (sub s : string) :
  contains_any_case sub s -> str_in sub (lower s) = true.
Proof.
  intros (pre & mid & post & -> & <-).
  rewrite !lower_app. apply str_in_intro.
Qed.

End Strings.

Lemma spoken_app l1 l2 : spoken (l1 ++ l2) = (spoken l1 ++ spoken l2)%list.
Proof. apply flat_map_app. Qed.

Lemma dispatched_app l1 l2 : dispatched (l1 ++ l2) = (dispatched l1 ++ dispatched l2)%list.
Proof. apply flat_map_app. Qed.

Lemma requests_app l1 l2 : requests (l1 ++ l2) = (requests l1 ++ requests l2)%list.
Proof. apply filter_app. Qed.

Lemma fallbacks_app l1 l2 : fallbacks (l1 ++ l2) = fallbacks l1 + fallbacks l2.
Proof. unfold fallbacks. rewrite filter_app, length_app. reflexivity. Qed.

Lemma listens_app l1 l2 : listens (l1 ++ l2) = listens l1 + listens l2.
Proof. unfold listens. rewrite filter_app, length_app. reflexivity. Qed.

Lemma low_spoken l : forallb is_low l = true -> spoken l = [].
Proof.
  induction l as [|e l IH]; simpl; [reflexivity|].
  intros H; apply andb_true_iff in H; destruct H as [He Hl].
  destruct e; try discriminate; simpl; auto.
Qed.

Lemma low_dispatched l : forallb is_low l = true -> dispatched l = [].
Proof.
  induction l as [|e l IH]; simpl; [reflexivity|].
  intros H; apply andb_true_iff in H; destruct H as [He Hl].
  destruct e; try discriminate; simpl; auto.
Qed.

Lemma low_requests l : forallb is_low l = true -> requests l = [].
Proof.
  induction l as [|e l IH]; simpl; [reflexivity|].
  intros H; apply andb_true_iff in H; destruct H as [He Hl].
  destruct e; try discriminate; simpl; auto.
Qed.

Lemma low_listens l : forallb is_low l = true -> listens l = 0.
Proof.
  induction l as [|e l IH]; simpl; [reflexivity|].
  intros H; apply andb_true_iff in H; destruct H as [He Hl].
  destruct e; try discriminate; simpl; auto.
Qed.

(** ** The player *)

Section Player.

Lemma always_Exception (e : exn) : isinstance e CException = true.
Proof. reflexivity. Qed.

(** [use_pyttsx3] returns whatever happens inside it. *)
Lemma use_pyttsx3_spec (audio : string) (env : pyttsx3_env) (w : world) :
  exists alt l,
    use_pyttsx3 audio env w
    = (Return tt,
       mk_world (VOICE_ID w) (voice_sample w) alt
                (out w ++ Call_use_pyttsx3 :: l)%list)
    /\ forallb is_low l = true /\ fallbacks l = 0.
Proof.
  destruct w as [v s a o].
  destruct env as [[e1|] [e2|] [e3|] [e4|] [e5|] [e6|]];
    cbv [use_pyttsx3 try_except bind emit may_raise raise ret print
         set_alternative_tts exists_alternative_tts find fst snd
         init_err save_err run_err alt_open_err alt_write_err alt_remove_err
         VOICE_ID voice_sample alternative_tts out isinstance subclass];
    rewrite <- ?app_assoc; eexists _, _;
    (split; [reflexivity|]); split; reflexivity.
Qed.

Lemma play_audio_from_stream_spec (audio : string) (env : play_env) (w : world) :
  exists alt l,
    play_audio_from_stream audio env w
    = (Return tt,
       mk_world (VOICE_ID w) (voice_sample w) alt
                (out w ++ Call_play_audio_from_stream :: l)%list)
    /\ forallb is_low l = true /\ fallbacks l = expected_fallbacks env.
Proof.
  destruct w as [v s a o]. destruct env as [t p f].
  unfold play_audio_from_stream, expected_fallbacks, primary_exn.
  destruct t as [[c m]|], p as [[c' m']|]; try destruct c; try destruct c';
    cbv [try_except bind emit may_raise raise ret print find fst snd
         tmpfile_err playsound_err fallback cls msg
         VOICE_ID voice_sample alternative_tts out isinstance subclass
         exn_class_eqb];
    rewrite <- ?app_assoc.
  all: try (eexists _, _; (split; [reflexivity|]); split; reflexivity).
  all: match goal with
       | |- context [use_pyttsx3 ?x ?y ?z] =>
           destruct (use_pyttsx3_spec x y z) as (alt & l & E & L & F);
           rewrite E; cbn [VOICE_ID voice_sample out]
       end.
  all: rewrite <- ?app_assoc; eexists _, _; (split; [reflexivity|]).
  all: split; [exact L | unfold fallbacks in *; cbn; rewrite F; reflexivity].
Qed.

End Player.

(** ** The synthesizer *)

Section Synthesizer.

(** [text_to_speech] always returns, leaves [VOICE_ID] alone, and adds a
    trace of the shape above. *)
Lemma text_to_speech_spec (text : string) (v : pyval) (env : tts_env) (w : world) :
  exists alt l,
    text_to_speech text v env w
    = (Return tt,
       mk_world (VOICE_ID w) (voice_sample w) alt
                (out w ++ Call_text_to_speech text v :: l)%list)
    /\ tts_tail text v l.
Proof.
  destruct w as [g s a o]. destruct env as [res pl].
  unfold text_to_speech, tts_tail.
  destruct (is_None v) eqn:N.
  - cbv [bind emit print VOICE_ID voice_sample alternative_tts out].
    rewrite <- app_assoc. eexists _, _. split; [reflexivity|].
    left; split; reflexivity.
  - destruct res as [[c m]|r].
    + destruct c;
        cbv [try_except bind emit http raise ret print find fst snd
             tts_result player cls msg
             VOICE_ID voice_sample alternative_tts out isinstance subclass
             exn_class_eqb];
        rewrite <- ?app_assoc; eexists _, _; (split; [reflexivity|]);
        right; (split; [reflexivity|]); eexists; split; reflexivity.
    + cbv [try_except bind emit http raise ret print find fst snd
           tts_result player raise_for_status
           VOICE_ID voice_sample alternative_tts out].
      destruct ((400 <=? status_code r)%nat && (status_code r <? 600)%nat).
      * cbv [isinstance subclass cls find fst snd bind emit
             VOICE_ID voice_sample alternative_tts out].
        rewrite <- ?app_assoc; eexists _, _; (split; [reflexivity|]).
        right; (split; [reflexivity|]); eexists; split; reflexivity.
      * unfold response_content. destruct (content r) as [[c m]|audio].
        -- destruct c;
             cbv [isinstance subclass cls find fst snd bind emit raise msg
                  exn_class_eqb
                  VOICE_ID voice_sample alternative_tts out];
             rewrite <- ?app_assoc; eexists _, _; (split; [reflexivity|]);
             right; (split; [reflexivity|]); eexists; split; reflexivity.
        -- cbv [ret].
           match goal with
           | |- context [play_audio_from_stream ?x ?y ?z] =>
               destruct (play_audio_from_stream_spec x y z) as (alt & l & E & L & _);
               rewrite E; cbn [VOICE_ID voice_sample out]
           end.
           rewrite <- ?app_assoc; eexists _, _; (split; [reflexivity|]).
           right; (split; [reflexivity|]); eexists; split; [reflexivity|].
           exact L.
Qed.

Lemma tts_tail_spoken text v l : tts_tail text v l -> spoken l = [].
Proof.
  intros [[_ ->]|[_ (l' & -> & L)]]; [reflexivity|].
  simpl. apply low_spoken, L.
Qed.

Lemma tts_tail_dispatched text v l : tts_tail text v l -> dispatched l = [].
Proof.
  intros [[_ ->]|[_ (l' & -> & L)]]; [reflexivity|].
  simpl. apply low_dispatched, L.
Qed.

Lemma tts_tail_listens text v l : tts_tail text v l -> listens l = 0.
Proof.
  intros [[_ ->]|[_ (l' & -> & L)]]; [reflexivity|].
  unfold listens; simpl. apply low_listens, L.
Qed.

End Synthesizer.

(** ** The dispatcher *)

Section Dispatcher.

(** [process_command] says the text of the branch that fires, once, with
    the global voice, and returns that branch's answer: whatever the
    synthesis call meets. *)
Lemma process_command_spec (q : string) (now : datetime) (env : tts_env) (w : world) :
  exists alt l,
    process_command q now env w
    = (Return (snd (chosen q now)),
       mk_world (VOICE_ID w) (voice_sample w) alt
                (out w ++ Call_process_command q
                      :: Call_text_to_speech (fst (chosen q now)) (VOICE_ID w)
                      :: l)%list)
    /\ tts_tail (fst (chosen q now)) (VOICE_ID w) l.
Proof.
  destruct w as [g s a o].
  unfold process_command, chosen.
  destruct (str_in "hello" q);
    [|destruct (str_in "what is the time" q);
      [|destruct (str_in "exit" q || str_in "quit" q || str_in "stop" q)]].
  all: cbv [bind emit get_VOICE_ID ret fst snd
            VOICE_ID voice_sample alternative_tts out].
  all: match goal with
       | |- context [text_to_speech ?t ?v ?e ?z] =>
           destruct (text_to_speech_spec t v e z) as (alt & l & E & T);
           rewrite E; cbn [VOICE_ID voice_sample out] in *
       end.
  all: rewrite <- ?app_assoc; exists alt, l; split; [reflexivity | exact T].
Qed.

Lemma chosen_hello q now :
  str_in "hello" q = true -> chosen q now = ("Hello! How can I help you?", false).
Proof. unfold chosen; intros ->; reflexivity. Qed.

Lemma chosen_farewell q now :
  str_in "hello" q = false -> str_in "what is the time" q = false ->
  str_in "exit" q || str_in "quit" q || str_in "stop" q = true ->
  chosen q now = ("Goodbye!", true).
Proof. unfold chosen; intros -> -> ->; reflexivity. Qed.

End Dispatcher.

(** ** The recognizer *)

Section Recognizer.

(** [listen] touches nothing but the console. *)
Lemma listen_spec (env : listen_env) (w : world) :
  exists r l,
    listen env w
    = (r, mk_world (VOICE_ID w) (voice_sample w) (alternative_tts w)
                   (out w ++ Call_listen :: l)%list)
    /\ forallb is_low l = true.
Proof.
  destruct w as [g s a o]. destruct env as [[e1|] [e2|] [[c m]|q]];
    try destruct c;
    cbv [listen try_except bind emit may_raise raise ret print find fst snd
         recognize_google mic_open_err capture_err recognized cls msg
         VOICE_ID voice_sample alternative_tts out isinstance subclass
         exn_class_eqb];
    rewrite <- ?app_assoc; eexists _, _; split; reflexivity.
Qed.

(** A transcript comes back lower-cased. *)
Lemma listen_heard (q : string) (w : world) :
  listen (mk_listen_env None None (inr q)) w
  = (Return (lower q),
     mk_world (VOICE_ID w) (voice_sample w) (alternative_tts w)
              (out w ++ [Call_listen; Print "Listening..."; Print "Recognizing...";
                         Print ("User said: " ++ q ++ newline)])%list).
Proof.
  destruct w as [g s a o].
  cbv [listen try_except bind emit may_raise raise ret print find fst snd
       recognize_google mic_open_err capture_err recognized
       VOICE_ID voice_sample alternative_tts out].
  rewrite <- ?app_assoc. reflexivity.
Qed.

End Recognizer.

(** ** The provisioner *)

Section Provisioner.

#[local] Arguments Nat.leb : simpl never.
#[local] Arguments Nat.ltb : simpl never.
#[local] Arguments str_in : simpl never.
#[local] Arguments String.eqb : simpl never.
#[local] Arguments lookup : simpl never.
#[local] Arguments existsb : simpl never.

(** Closes a case of the provisioning run once its outcome is determined. *)
Ltac settled o0 :=
  cbn; rewrite <- ?app_assoc;
  eexists _, _, _, _; split;
  [ first [ reflexivity | rewrite <- (app_nil_r o0) at 1; reflexivity ]
  | split; [reflexivity|];
    split;
    [ intros ? H; inversion H; subst; split; reflexivity
    | intros (? & ? & E1 & E2 & E3);
      first [ right; eexists; reflexivity
            | left; reflexivity
            | inversion E1; subst; cbn in *; congruence ] ] ].

(** The [try] block of [create_custom_voice]: when it runs to its end the
    identifier is in [VOICE_ID] and the sample file is gone; when the
    provider's answer has no [voice_id] it does not run to its end. *)
Lemma create_custom_voice_try_spec (env : voice_env) (w : world) :
  exists r g s l,
    create_custom_voice_try env w
    = (r, mk_world g s (alternative_tts w) (out w ++ l)%list)
    /\ forallb is_provisioning l = true
    /\ (forall v, r = Return v -> g = v /\ s = false)
    /\ (lacks_voice_id env -> r = SysExit \/ exists e, r = Raise e).
Proof.
  destruct w as [g0 s0 a0 o0].
  destruct env as [gr ow wr orb pr rm].
  unfold lacks_voice_id, create_custom_voice_try.
  unfold http, emit, may_raise, print,
       raise_for_status, response_content, response_json, py_in, py_getitem,
       sys_exit, open_wb_voice_sample, open_rb_voice_sample, os_remove_voice_sample,
       exists_voice_sample, set_voice_sample, set_VOICE_ID, get_VOICE_ID,
       may_raise, raise, ret, bind.
  destruct gr as [e|[st c j]]; [settled o0|]; cbn.
  destruct ((400 <=? st)%nat && (st <? 600)%nat); [settled o0|]; cbn.
  destruct ow as [e|]; [settled o0|]; cbn.
  destruct c as [e|bytes]; [settled o0|]; cbn.
  destruct wr as [e|]; [settled o0|]; cbn.
  destruct orb as [e|]; [settled o0|]; cbn.
  destruct pr as [e|[st' c' j']]; [settled o0|]; cbn.
  destruct ((400 <=? st')%nat && (st' <? 600)%nat); [settled o0|]; cbn.
  destruct j' as [e|v]; [settled o0|]; cbn.
  destruct v as [ | b | z | s | l | d ]; try solve [settled o0]; cbn.
  - destruct (str_in "voice_id" s); settled o0.
  - destruct (existsb _ l); settled o0.
  - destruct (lookup "voice_id" d) as [x|] eqn:L; cbn; [|settled o0].
    destruct rm as [e|]; settled o0.
Qed.

(** [create_custom_voice] as a whole: no exception leaves it; it either
    exits the process or returns, and a value that counts as true is the
    identifier now in [VOICE_ID], the sample file being removed. *)
Lemma create_custom_voice_spec (env : voice_env) (w : world) :
  exists r g s l,
    create_custom_voice env w
    = (r, mk_world g s (alternative_tts w)
                   (out w ++ Call_create_custom_voice :: l)%list)
    /\ forallb is_provisioning l = true
    /\ (r = SysExit
        \/ exists v, r = Return v /\ (truthy v = true -> g = v /\ s = false))
    /\ (lacks_voice_id env -> r = SysExit \/ r = Return PyNone).
Proof.
  unfold create_custom_voice, bind at 1, emit.
  match goal with
  | |- context [try_except ?b ?h ?z] =>
      destruct (create_custom_voice_try_spec env z) as (r & g & s & l & E & P & R & K)
  end.
  unfold try_except. rewrite E. clear E.
  destruct w as [g0 s0 a0 o0]; cbn [VOICE_ID voice_sample alternative_tts out] in *.
  destruct r as [v|[c m]|].
  - rewrite <- app_assoc. exists (Return v), g, s, l.
    split; [reflexivity|]. split; [exact P|]. split.
    + right. exists v. split; [reflexivity|]. intros _. apply R. reflexivity.
    + intros H. destruct (K H) as [F|[e F]]; discriminate.
  - destruct c;
      cbv [create_custom_voice_except find fst snd isinstance subclass cls
           exn_class_eqb bind print emit ret msg
           VOICE_ID voice_sample alternative_tts out];
      rewrite <- !app_assoc;
      eexists (Return PyNone), g, s, _;
      (split; [reflexivity|]);
      (split; [rewrite forallb_app, P; reflexivity|]);
      (split; [right; exists PyNone; split; [reflexivity|discriminate]
              | intros _; right; reflexivity]).
  - rewrite <- app_assoc. exists SysExit, g, s, l.
    split; [reflexivity|]. split; [exact P|]. split; [left; reflexivity|].
    intros _; left; reflexivity.
Qed.

End Provisioner.

(** ** The main loop *)

Section MainLoop.

Lemma provisioning_spoken l : forallb is_provisioning l = true -> spoken l = [].
Proof.
  induction l as [|e l IH]; simpl; [reflexivity|].
  intros H; apply andb_true_iff in H; destruct H as [He Hl].
  destruct e; try discriminate; simpl; auto.
Qed.

Lemma provisioning_dispatched l :
  forallb is_provisioning l = true -> dispatched l = [].
Proof.
  induction l as [|e l IH]; simpl; [reflexivity|].
  intros H; apply andb_true_iff in H; destruct H as [He Hl].
  destruct e; try discriminate; simpl; auto.
Qed.

Lemma provisioning_listens l : forallb is_provisioning l = true -> listens l = 0.
Proof.
  induction l as [|e l IH]; simpl; [reflexivity|].
  intros H; apply andb_true_iff in H; destruct H as [He Hl].
  destruct e; try discriminate; simpl; auto.
Qed.

(** One turn in which [listen] returns the empty string is that call of
    [listen] and nothing more. *)
Lemma main_loop_skip (t : iter_env) (rest : list iter_env) (w w1 : world) :
  listen (heard t) w = (Return "", w1) ->
  main_loop (t :: rest) w = main_loop rest w1.
Proof.
  intros H. cbn [main_loop]. unfold bind at 1. rewrite H. reflexivity.
Qed.

(** Every turn of the loop keeps [VOICE_ID]; all it says, it says with
    that voice; and what it dispatches is never the empty string. *)
Lemma main_loop_spec (turns : list iter_env) (w : world) :
  exists r alt l,
    main_loop turns w
    = (r, mk_world (VOICE_ID w) (voice_sample w) alt (out w ++ l)%list)
    /\ (forall t v, In (t, v) (spoken l) -> v = VOICE_ID w)
    /\ Forall (fun q => q <> "") (dispatched l).
Proof.
  revert w. induction turns as [|t rest IH]; intros w.
  - exists (Return Running), (alternative_tts w), [].
    rewrite app_nil_r. destruct w; cbn. repeat split; [intros ? ? []|constructor].
  - cbn [main_loop]. unfold bind at 1.
    destruct (listen_spec (heard t) w) as (r0 & l0 & E0 & L0). rewrite E0.
    destruct r0 as [cmd|e|].
    + destruct (cmd =? "") eqn:Q; cbn [negb].
      * match goal with
        | |- context [main_loop rest ?z] =>
            destruct (IH z) as (r & alt & l & E & S & D); rewrite E
        end.
        cbn [VOICE_ID voice_sample out] in *.
        exists r, alt, (Call_listen :: l0 ++ l)%list.
        split; [rewrite <- app_assoc; reflexivity|].
        change (Call_listen :: l0 ++ l)%list with ((Call_listen :: l0) ++ l)%list.
        rewrite spoken_app, dispatched_app.
        cbn [spoken dispatched flat_map].
        change (flat_map _ l0) with (spoken l0) at 1.
        change (flat_map _ l0) with (dispatched l0).
        rewrite (low_spoken _ L0), (low_dispatched _ L0). cbn [app].
        split; assumption.
      * unfold bind at 1.
        match goal with
        | |- context [process_command ?c ?n ?e ?z] =>
            destruct (process_command_spec c n e z) as (alt1 & l1 & E1 & T1);
            rewrite E1
        end.
        cbn [VOICE_ID voice_sample out] in *.
        assert (N : cmd <> "") by (intros ->; discriminate).
        set (turn := (Call_listen :: l0 ++ Call_process_command cmd
                      :: Call_text_to_speech (fst (chosen cmd (clock t))) (VOICE_ID w)
                      :: l1)%list).
        assert (O : ((out w ++ Call_listen :: l0) ++ Call_process_command cmd
                      :: Call_text_to_speech (fst (chosen cmd (clock t))) (VOICE_ID w)
                      :: l1 = out w ++ turn)%list)
          by (unfold turn; rewrite <- app_assoc; reflexivity).
        rewrite O.
        assert (S1 : spoken turn = [(fst (chosen cmd (clock t)), VOICE_ID w)]).
        { unfold turn.
          change (Call_listen :: l0 ++ ?x)%list with ((Call_listen :: l0) ++ x)%list.
          rewrite spoken_app. cbn [spoken flat_map].
          change (flat_map _ l0) with (spoken l0).
          change (flat_map _ l1) with (spoken l1).
          rewrite (low_spoken _ L0), (tts_tail_spoken _ _ _ T1). reflexivity. }
        assert (D1 : dispatched turn = [cmd]).
        { unfold turn.
          change (Call_listen :: l0 ++ ?x)%list with ((Call_listen :: l0) ++ x)%list.
          rewrite dispatched_app. cbn [dispatched flat_map].
          change (flat_map _ l0) with (dispatched l0).
          change (flat_map _ l1) with (dispatched l1).
          rewrite (low_dispatched _ L0), (tts_tail_dispatched _ _ _ T1). reflexivity. }
        clearbody turn.
        destruct (snd (chosen cmd (clock t))).
        -- exists (Return Broke), alt1, turn.
           split; [reflexivity|].
           rewrite S1, D1. split.
           ++ intros t0 v [H|[]]. now inversion H.
           ++ constructor; [exact N|constructor].
        -- match goal with
           | |- context [main_loop rest ?z] =>
               destruct (IH z) as (r & alt & l & E & S & D); rewrite E
           end.
           cbn [VOICE_ID voice_sample out] in *.
           exists r, alt, (turn ++ l)%list.
           split; [rewrite <- !app_assoc; reflexivity|].
           rewrite spoken_app, dispatched_app, S1, D1. split.
           ++ intros t0 v [H|H]; [now inversion H | eapply S, H].
           ++ constructor; [exact N|exact D].
    + exists (Raise e), (alternative_tts w), (Call_listen :: l0)%list.
      split; [reflexivity|].
      change (Call_listen :: l0)%list with ([Call_listen] ++ l0)%list.
      rewrite spoken_app, dispatched_app, (low_spoken _ L0), (low_dispatched _ L0).
      split; [intros ? ? []|constructor].
    + exists SysExit, (alternative_tts w), (Call_listen :: l0)%list.
      split; [reflexivity|].
      change (Call_listen :: l0)%list with ([Call_listen] ++ l0)%list.
      rewrite spoken_app, dispatched_app, (low_spoken _ L0), (low_dispatched _ L0).
      split; [intros ? ? []|constructor].
Qed.

End MainLoop.

(** ** The whole run *)

Section Main.

(** A run either stops with [exit()] before anything is said or heard, or
    provisioning returned an identifier that counts as true and every
    word is said with it. *)
Lemma main_spec (env : main_env) (sample alt : bool) :
  exists r w',
    main env (initial sample alt) = (r, w')
    /\ ((r = SysExit /\ spoken (out w') = [] /\ dispatched (out w') = []
         /\ listens (out w') = 0)
        \/ (exists v w1,
              create_custom_voice (provisioning env) (initial sample alt)
              = (Return v, w1)
              /\ truthy v = true
              /\ (forall t u, In (t, u) (spoken (out w')) -> u = v)
              /\ Forall (fun q => q <> "") (dispatched (out w')))).
Proof.
  unfold main.
  destruct (key_missing (ELEVENLABS_API_KEY env)).
  - eexists _, _. split; [reflexivity|]. left. repeat split.
  - unfold bind at 1. unfold ret at 1. unfold bind at 1.
    unfold get_VOICE_ID at 1. cbn [initial VOICE_ID truthy negb].
    unfold bind at 1. unfold bind at 1.
    destruct (create_custom_voice_spec (provisioning env) (initial sample alt))
      as (r & g & s & l & E & P & R & _).
    rewrite E.
    destruct R as [->|(v & -> & R)].
    + eexists _, _. split; [reflexivity|]. left.
      cbn [out initial app]. split; [reflexivity|].
      change (Call_create_custom_voice :: l)%list
        with ([Call_create_custom_voice] ++ l)%list.
      rewrite spoken_app, dispatched_app, listens_app,
        (provisioning_spoken _ P), (provisioning_dispatched _ P),
        (provisioning_listens _ P). repeat split.
    + unfold bind at 1. unfold set_VOICE_ID at 1.
      cbn [VOICE_ID voice_sample alternative_tts out initial app].
      destruct (truthy v) eqn:T; cbn [negb].
      * destruct (R eq_refl) as [-> ->]. clear R.
        unfold ret at 1. unfold bind at 1. unfold get_VOICE_ID at 1.
        cbn [VOICE_ID]. unfold bind at 1.
        match goal with
        | |- context [text_to_speech ?t ?u ?e ?z] =>
            destruct (text_to_speech_spec t u e z) as (alt1 & l1 & E1 & T1);
            rewrite E1
        end.
        cbn [VOICE_ID voice_sample alternative_tts out].
        match goal with
        | |- context [main_loop ?t ?z] =>
            destruct (main_loop_spec t z) as (r2 & alt2 & l2 & E2 & S2 & D2);
            rewrite E2
        end.
        cbn [VOICE_ID voice_sample alternative_tts out] in *.
        eexists _, _. split; [reflexivity|]. right.
        eexists _, _. split; [reflexivity|]. split; [exact T|].
        cbn [out].
        change (Call_create_custom_voice :: l)%list
          with ([Call_create_custom_voice] ++ l)%list.
        match goal with
        | |- context [(Call_text_to_speech ?t ?u :: l1)%list] =>
            change (Call_text_to_speech t u :: l1)%list
              with ([Call_text_to_speech t u] ++ l1)%list
        end.
        rewrite !spoken_app, !dispatched_app,
          (provisioning_spoken _ P), (provisioning_dispatched _ P),
          (tts_tail_spoken _ _ _ T1), (tts_tail_dispatched _ _ _ T1).
        cbn [spoken dispatched flat_map app]. split; [|exact D2].
        intros t u [H|H]; [now inversion H | eapply S2, H].
      * eexists _, _. split; [reflexivity|]. left.
        cbn [bind print emit sys_exit out VOICE_ID voice_sample alternative_tts].
        split; [reflexivity|].
        change (Call_create_custom_voice :: l)%list
          with ([Call_create_custom_voice] ++ l)%list.
        rewrite !spoken_app, !dispatched_app, !listens_app,
          (provisioning_spoken _ P), (provisioning_dispatched _ P),
          (provisioning_listens _ P). repeat split.
Qed.

End Main.

(** ** Derived forms *)

Section Derived.

(** [process_command] in terms of what its run shows. *)
Lemma process_command_run (q : string) (now : datetime) (env : tts_env) (w : world) :
  fst (process_command q now env w) = Return (snd (chosen q now))
  /\ spoken (out (snd (process_command q now env w)))
     = (spoken (out w) ++ [(fst (chosen q now), VOICE_ID w)])%list
  /\ dispatched (out (snd (process_command q now env w)))
     = (dispatched (out w) ++ [q])%list.
Proof.
  destruct (process_command_spec q now env w) as (alt & l & E & T).
  rewrite E. cbn [fst snd out].
  change (Call_process_command q :: Call_text_to_speech ?t ?v :: l)%list
    with ([Call_process_command q; Call_text_to_speech t v] ++ l)%list.
  rewrite !spoken_app, !dispatched_app,
    (tts_tail_spoken _ _ _ T), (tts_tail_dispatched _ _ _ T).
  repeat split.
Qed.

Lemma contains_str_in (sub s : string) : contains sub s <-> str_in sub s = true.
Proof. symmetry. apply str_in_spec. Qed.

Lemma not_contains_str_in (sub s : string) :
  ~ contains sub s -> str_in sub s = false.
Proof.
  intros H. destruct (str_in sub s) eqn:E; [|reflexivity].
  elim H. apply contains_str_in, E.
Qed.




End Derived.


(** ** Reading the time back *)

Section ClockReading.

Lemma mod_12_below_24 (h : nat) :
  h < 24 -> h mod 12 = if (h <? 12)%nat then h else h - 12.
Proof.
  intros H. destruct (h <? 12)%nat eqn:E.
  - apply Nat.ltb_lt in E. apply Nat.mod_small, E.
  - apply Nat.ltb_ge in E.
    replace h with ((h - 12) + 1 * 12) at 1 by lia.
    rewrite Nat.Div0.mod_add. apply Nat.mod_small. lia.
Qed.




End ClockReading.

(** * The claims *)

(** ** Voice identifier (C1) *)

Lemma lacks_voice_id_fails (env : voice_env) (w : world) :
  lacks_voice_id env -> provisioning_failed env w.
Proof.
  intros H v w' E.
  destruct (create_custom_voice_spec env w) as (r & g & s & l & E' & _ & _ & K).
  rewrite E' in E. inversion E; subst.
  destruct (K H) as [F|F]; inversion F. reflexivity.
Qed.

Lemma failed_run_stops (env : main_env) (sample alt : bool) :
  provisioning_failed (provisioning env) (initial sample alt) ->
  fst (main env (initial sample alt)) = SysExit
  /\ spoken (out (snd (main env (initial sample alt)))) = []
  /\ listens (out (snd (main env (initial sample alt)))) = 0.
Proof.
  intros F.
  destruct (main_spec env sample alt) as (r & w' & E & [(-> & S & _ & L)|R]).
  - rewrite E. repeat split; assumption.
  - destruct R as (v & w1 & C & T & _). apply F in C. congruence.
Qed.

(** C1. Every call of [text_to_speech] made by the script carries a voice
    identifier that is set and non-empty (not [None], not the empty
    string); and when provisioning fails, in particular when the
    provider's answer has no [voice_id] field, the run ends with [exit()]
    before the main loop: nothing has been said and [listen] has not been
    called. *)
Theorem voice_set_before_synthesis (env : main_env) (sample alt : bool) :
  (forall t v,
      In (t, v) (spoken (out (snd (main env (initial sample alt))))) ->
      truthy v = true /\ v <> PyNone /\ v <> PyStr "")
  /\ (provisioning_failed (provisioning env) (initial sample alt) ->
      fst (main env (initial sample alt)) = SysExit
      /\ spoken (out (snd (main env (initial sample alt)))) = []
      /\ listens (out (snd (main env (initial sample alt)))) = 0)
  /\ (lacks_voice_id (provisioning env) ->
      fst (main env (initial sample alt)) = SysExit
      /\ spoken (out (snd (main env (initial sample alt)))) = []
      /\ listens (out (snd (main env (initial sample alt)))) = 0).
Proof.
  split; [|split].
  - intros t v H.
    destruct (main_spec env sample alt) as (r & w' & E & [(_ & S & _)|R]);
      rewrite E in H; cbn [snd] in H.
    + rewrite S in H. destruct H.
    + destruct R as (u & w1 & _ & T & A & _).
      rewrite (A _ _ H). split; [exact T|].
      split; intros ->; discriminate.
  - apply failed_run_stops.
  - intros H. apply failed_run_stops, lacks_voice_id_fails, H.
Qed.

Lemma voice_set_before_synthesis_witness :
  (truthy (PyStr "v1") = true /\ PyStr "v1" <> PyNone /\ PyStr "v1" <> PyStr "")
  /\ lacks_voice_id upload_without_voice_id
  /\ fst (main (mk_main_env (Some "key") upload_without_voice_id working_tts [])
               (initial false false)) = SysExit.
Proof.
  split; [|split].
  - apply (voice_set_before_synthesis
             (mk_main_env (Some "key") upload_accepted working_tts [])
             false false
           : _ /\ _)
      with (t := "Hello, I am your custom voice assistant. How can I help you today?").
    vm_compute. left. reflexivity.
  - eexists _, _. repeat split; reflexivity.
  - apply (voice_set_before_synthesis
             (mk_main_env (Some "key") upload_without_voice_id working_tts [])
             false false).
    eexists _, _. repeat split; reflexivity.
Defined.

(** ** Dispatch (C2, C3, C4, C9) *)

(** C2. An utterance that contains both "hello" and "exit" fires the
    greeting branch only: one call of [text_to_speech], with the greeting,
    and the answer is [False]. *)
Theorem hello_wins_over_exit (q : string) (now : datetime) (env : tts_env) (w : world) :
  contains "hello" q -> contains "exit" q ->
  fst (process_command q now env w) = Return false
  /\ spoken (out (snd (process_command q now env w)))
     = (spoken (out w) ++ [("Hello! How can I help you?", VOICE_ID w)])%list.
Proof.
  intros H _. apply contains_str_in in H.
  destruct (process_command_run q now env w) as (R & S & _).
  rewrite (chosen_hello q now H) in R, S. split; assumption.
Qed.

Lemma hello_wins_over_exit_witness :
  fst (process_command "hello exit" noon working_tts started) = Return false
  /\ spoken (out (snd (process_command "hello exit" noon working_tts started)))
     = (spoken (out started) ++ [("Hello! How can I help you?", VOICE_ID started)])%list.
Proof.
  apply (hello_wins_over_exit "hello exit" noon working_tts started).
  - exists "", " exit". reflexivity.
  - exists "hello ", "". reflexivity.
Defined.

(** C3, as stated: every utterance containing "exit", "quit" or "stop"
    makes [process_command] return [True].  It fails: "hello exit" fires
    the greeting branch, which returns [False]. *)
Lemma exit_word_does_not_always_end :
  ~ (forall (q : string) (now : datetime) (env : tts_env) (w : world),
        contains "exit" q \/ contains "quit" q \/ contains "stop" q ->
        fst (process_command q now env w) = Return true).
Proof.
  intros H.
  assert (C : contains "exit" "hello exit") by (exists "hello ", ""; reflexivity).
  specialize (H "hello exit" noon working_tts started (or_introl C)).
  vm_compute in H. discriminate.
Qed.

(** C3, amended. An utterance containing "exit", "quit" or "stop", and
    neither "hello" nor "what is the time", makes [process_command] say
    the farewell and return [True]. *)
Theorem exit_word_ends (q : string) (now : datetime) (env : tts_env) (w : world) :
  contains "exit" q \/ contains "quit" q \/ contains "stop" q ->
  ~ contains "hello" q -> ~ contains "what is the time" q ->
  fst (process_command q now env w) = Return true
  /\ spoken (out (snd (process_command q now env w)))
     = (spoken (out w) ++ [("Goodbye!", VOICE_ID w)])%list.
Proof.
  intros H N1 N2.
  apply not_contains_str_in in N1. apply not_contains_str_in in N2.
  assert (E : str_in "exit" q || str_in "quit" q || str_in "stop" q = true).
  { destruct H as [H|[H|H]]; apply contains_str_in in H; rewrite H;
      rewrite ?orb_true_r; reflexivity. }
  destruct (process_command_run q now env w) as (R & S & _).
  rewrite (chosen_farewell q now N1 N2 E) in R, S. split; assumption.
Qed.

Lemma exit_word_ends_witness :
  fst (process_command "please stop" noon working_tts started) = Return true
  /\ spoken (out (snd (process_command "please stop" noon working_tts started)))
     = (spoken (out started) ++ [("Goodbye!", VOICE_ID started)])%list.
Proof.
  apply (exit_word_ends "please stop" noon working_tts started).
  - right; right. exists "please ", "". reflexivity.
  - intros H. apply contains_str_in in H. vm_compute in H. discriminate.
  - intros H. apply contains_str_in in H. vm_compute in H. discriminate.
Defined.


(** C4, as stated: every utterance containing "hello" in any letter case
    makes [process_command] greet and return [False].  It fails:
    [process_command] compares characters exactly, and on "HELLO" it
    takes the last branch. *)
Lemma hello_in_capitals_not_greeted :
  ~ (forall (q : string) (now : datetime) (env : tts_env) (w : world),
        contains_any_case "hello" q ->
        fst (process_command q now env w) = Return false
        /\ spoken (out (snd (process_command q now env w)))
           = (spoken (out w) ++ [("Hello! How can I help you?", VOICE_ID w)])%list).
Proof.
  intros H.
  assert (C : contains_any_case "hello" "HELLO").
  { exists "", "HELLO", "". split; reflexivity. }
  destruct (H "HELLO" noon working_tts started C) as [_ S].
  vm_compute in S. discriminate.
Qed.

(** C4, amended. [process_command] greets and returns [False] on every
    utterance that contains "hello" in lower case, with any surrounding
    text; and since [listen] lower-cases the transcript, a transcript
    that contains "hello" in any letter case reaches [process_command]
    in a form that is greeted. *)
Theorem hello_greeted (now : datetime) (env : tts_env) (w : world) :
  (forall q,
      contains "hello" q ->
      fst (process_command q now env w) = Return false
      /\ spoken (out (snd (process_command q now env w)))
         = (spoken (out w) ++ [("Hello! How can I help you?", VOICE_ID w)])%list)
  /\ (forall transcript w0,
         contains_any_case "hello" transcript ->
         fst (listen (mk_listen_env None None (inr transcript)) w0)
         = Return (lower transcript)
         /\ fst (process_command (lower transcript) now env w) = Return false
         /\ spoken (out (snd (process_command (lower transcript) now env w)))
            = (spoken (out w)
               ++ [("Hello! How can I help you?", VOICE_ID w)])%list).
Proof.
  assert (G : forall q, str_in "hello" q = true ->
      fst (process_command q now env w) = Return false
      /\ spoken (out (snd (process_command q now env w)))
         = (spoken (out w) ++ [("Hello! How can I help you?", VOICE_ID w)])%list).
  { intros q H. destruct (process_command_run q now env w) as (R & S & _).
    rewrite (chosen_hello q now H) in R, S. split; assumption. }
  split.
  - intros q H. apply G, contains_str_in, H.
  - intros t w0 H. split; [rewrite listen_heard; reflexivity|].
    apply G, lower_contains, H.
Qed.

Lemma hello_greeted_witness :
  fst (listen (mk_listen_env None None (inr "Oh HeLLo there")) started)
  = Return "oh hello there"
  /\ fst (process_command "oh hello there" noon working_tts started) = Return false
  /\ spoken (out (snd (process_command "oh hello there" noon working_tts started)))
     = (spoken (out started)
        ++ [("Hello! How can I help you?", VOICE_ID started)])%list.
Proof.
  apply (hello_greeted noon working_tts started : _ /\ _)
    with (transcript := "Oh HeLLo there").
  exists "Oh ", "HeLLo", " there". split; reflexivity.
Defined.



(** ** Provisioning clean-up (C5) *)

(** C5. The sample file is removed on the path that returns the
    identifier, and on no other: when the upload is answered with an
    error status [create_custom_voice] returns [None] with
    [voice_sample.mp3] still there, and when the answer has no [voice_id]
    the process exits with the file still there. *)
Theorem sample_left_behind :
  (fst (create_custom_voice upload_accepted (initial false false))
   = Return (PyStr "v1")
   /\ voice_sample (snd (create_custom_voice upload_accepted (initial false false)))
      = false)
  /\ (fst (create_custom_voice upload_rejected (initial false false))
      = Return PyNone
      /\ voice_sample (snd (create_custom_voice upload_rejected (initial false false)))
         = true)
  /\ (fst (create_custom_voice upload_without_voice_id (initial false false))
      = SysExit
      /\ voice_sample
           (snd (create_custom_voice upload_without_voice_id (initial false false)))
         = true).
Proof. repeat split; vm_compute; reflexivity. Qed.

(** ** Playback (C6) *)

(** C6. [play_audio_from_stream] returns to its caller whatever happens
    inside it, and when [playsound] raises its own exception
    [use_pyttsx3] is called exactly once. *)
Theorem play_never_raises (audio : string) (env : play_env) (w : world) :
  fst (play_audio_from_stream audio env w) = Return tt
  /\ (forall e,
         tmpfile_err env = None ->
         playsound_err env = Some e ->
         cls e = CPlaysoundException ->
         fallbacks (out (snd (play_audio_from_stream audio env w)))
         = fallbacks (out w) + 1).
Proof.
  destruct (play_audio_from_stream_spec audio env w) as (alt & l & E & _ & F).
  rewrite E. cbn [fst snd out]. split; [reflexivity|].
  intros e T P C.
  change (Call_play_audio_from_stream :: l)%list
    with ([Call_play_audio_from_stream] ++ l)%list.
  rewrite !fallbacks_app, F.
  unfold expected_fallbacks, primary_exn, isinstance. rewrite T, P, C.
  reflexivity.
Qed.

Lemma play_never_raises_witness :
  fallbacks (out (snd (play_audio_from_stream "mp3 bytes" broken_player started)))
  = fallbacks (out started) + 1.
Proof.
  apply (play_never_raises "mp3 bytes" broken_player started : _ /\ _)
    with (e := mk_exn CPlaysoundException "cannot play"); reflexivity.
Defined.

(** ** Synthesis failures and the voice guard (C7, C8) *)

(** C7. [process_command] returns, and returns the same answer, whatever
    the synthesis call inside it meets: in particular with an error
    status from the synthesis endpoint. *)
Theorem decision_independent_of_synthesis
  (q : string) (now : datetime) (env1 env2 : tts_env) (w : world) :
  exists b,
    fst (process_command q now env1 w) = Return b
    /\ fst (process_command q now env2 w) = Return b.
Proof.
  exists (snd (chosen q now)).
  split; apply process_command_run.
Qed.

(** With [None] for the voice identifier [text_to_speech] prints its
    complaint and returns; no request is made. *)
Lemma no_voice_no_request (text : string) (env : tts_env) (w : world) :
  text_to_speech text PyNone env w
  = (Return tt,
     mk_world (VOICE_ID w) (voice_sample w) (alternative_tts w)
              (out w ++ [Call_text_to_speech text PyNone;
                         Print "Error: No voice ID provided."])%list)
  /\ requests (out (snd (text_to_speech text PyNone env w))) = requests (out w).
Proof.
  assert (E : text_to_speech text PyNone env w
              = (Return tt,
                 mk_world (VOICE_ID w) (voice_sample w) (alternative_tts w)
                          (out w ++ [Call_text_to_speech text PyNone;
                                     Print "Error: No voice ID provided."])%list)).
  { destruct w as [g s a o].
    cbv [text_to_speech is_None bind emit print
         VOICE_ID voice_sample alternative_tts out].
    rewrite <- app_assoc. reflexivity. }
  split; [exact E|].
  rewrite E. cbn [snd out]. rewrite requests_app. cbn. apply app_nil_r.
Qed.

(** C8, as stated: [text_to_speech] requires a non-empty voice
    identifier, so that without one (the identifier [None] or empty) it
    returns without a request.  It fails: the guard tests for [None]
    only, and with the empty string the request is made. *)
Lemma empty_voice_id_is_requested :
  ~ (forall (text : string) (v : pyval) (env : tts_env) (w : world),
        truthy v = false ->
        requests (out (snd (text_to_speech text v env w))) = requests (out w)).
Proof.
  intros H.
  specialize (H "hi" (PyStr "") working_tts started eq_refl).
  vm_compute in H. discriminate.
Qed.

(** C8, amended. [text_to_speech] tests its voice identifier for [None]
    only.  With [None] it prints its complaint and returns without a
    request; with any other value, the empty string included, it makes
    the request, and returns. *)
Theorem voice_guard_tests_for_none (text : string) (env : tts_env) (w : world) :
  (text_to_speech text PyNone env w
   = (Return tt,
      mk_world (VOICE_ID w) (voice_sample w) (alternative_tts w)
               (out w ++ [Call_text_to_speech text PyNone;
                          Print "Error: No voice ID provided."])%list)
   /\ requests (out (snd (text_to_speech text PyNone env w))) = requests (out w))
  /\ (forall v,
         v <> PyNone ->
         fst (text_to_speech text v env w) = Return tt
         /\ requests (out (snd (text_to_speech text v env w)))
            = (requests (out w) ++ [HttpPostTTS v text])%list).
Proof.
  split; [apply no_voice_no_request|].
  intros v N.
  assert (I : is_None v = false) by (destruct v; try reflexivity; elim N; reflexivity).
  destruct (text_to_speech_spec text v env w) as (alt & l & E & T).
  rewrite E. cbn [fst snd out]. split; [reflexivity|].
  destruct T as [[I' _]|[_ (l' & -> & L)]]; [congruence|].
  change (Call_text_to_speech text v :: HttpPostTTS v text :: l')%list
    with ([Call_text_to_speech text v; HttpPostTTS v text] ++ l')%list.
  rewrite !requests_app, (low_requests _ L). cbn. rewrite ?app_nil_r. reflexivity.
Qed.

Lemma voice_guard_tests_for_none_witness :
  fst (text_to_speech "hi" (PyStr "") working_tts started) = Return tt
  /\ requests (out (snd (text_to_speech "hi" (PyStr "") working_tts started)))
     = (requests (out started) ++ [HttpPostTTS (PyStr "") "hi"])%list.
Proof.
  apply (voice_guard_tests_for_none "hi" working_tts started : _ /\ _)
    with (v := PyStr "").
  discriminate.
Defined.

(** ** Empty utterances (C10) *)

(** C10. A turn in which [listen] returns the empty string goes on to
    the next turn with nothing dispatched, said or requested; on the
    whole run [process_command] is never called with the empty string;
    yet [process_command] applied to the empty string would say that it
    does not understand. *)
Theorem empty_utterance_skipped :
  (forall (t : iter_env) (rest : list iter_env) (w w1 : world),
      listen (heard t) w = (Return "", w1) ->
      main_loop (t :: rest) w = main_loop rest w1
      /\ dispatched (out w1) = dispatched (out w)
      /\ spoken (out w1) = spoken (out w)
      /\ requests (out w1) = requests (out w))
  /\ (forall (env : main_env) (sample alt : bool),
         Forall (fun q => q <> "")
                (dispatched (out (snd (main env (initial sample alt))))))
  /\ (forall (now : datetime) (env : tts_env) (w : world),
         fst (process_command "" now env w) = Return false
         /\ spoken (out (snd (process_command "" now env w)))
            = (spoken (out w)
               ++ [("I'm sorry, I don't understand that yet.", VOICE_ID w)])%list).
Proof.
  split; [|split].
  - intros t rest w w1 H. split; [apply main_loop_skip, H|].
    destruct (listen_spec (heard t) w) as (r & l & E & L).
    rewrite E in H. inversion H; subst. cbn [out].
    change (Call_listen :: l)%list with ([Call_listen] ++ l)%list.
    rewrite !dispatched_app, !spoken_app, !requests_app,
      (low_dispatched _ L), (low_spoken _ L), (low_requests _ L).
    cbn. rewrite !app_nil_r. repeat split.
  - intros env sample alt.
    destruct (main_spec env sample alt) as (r & w' & E & [(_ & _ & D & _)|R]);
      rewrite E; cbn [snd].
    + rewrite D. constructor.
    + destruct R as (v & w1 & _ & _ & _ & D). exact D.
  - intros now env w.
    destruct (process_command_run "" now env w) as (R & S & _).
    split; assumption.
Qed.

Lemma empty_utterance_skipped_witness :
  main_loop [mk_iter_env silence noon working_tts] started
  = main_loop [] (snd (listen silence started))
  /\ dispatched (out (snd (listen silence started))) = dispatched (out started).
Proof.
  destruct (proj1 empty_utterance_skipped
              (mk_iter_env silence noon working_tts) [] started
              (snd (listen silence started)) eq_refl) as (A & B & _).
  split; [exact A|exact B].
Defined.


(** * Further properties of the script *)

(** ** The dispatcher *)

Lemma ends_iff_exit_word (q : string) (now : datetime) :
  snd (chosen q now) = true
  <-> (has_exit_word q /\ ~ contains "hello" q /\ ~ contains "what is the time" q).
Proof.
  unfold chosen, has_exit_word.
  destruct (str_in "hello" q) eqn:H1; [|destruct (str_in "what is the time" q) eqn:H2;
    [|destruct (str_in "exit" q) eqn:E1; [|destruct (str_in "quit" q) eqn:E2;
      [|destruct (str_in "stop" q) eqn:E3]]]]; cbn.
  - split; [discriminate|]. intros (_ & N & _). elim N. apply contains_str_in, H1.
  - split; [discriminate|]. intros (_ & _ & N). elim N. apply contains_str_in, H2.
  - split; [|reflexivity]. intros _. split; [left; apply contains_str_in, E1|].
    split; intros C; apply contains_str_in in C; congruence.
  - split; [|reflexivity]. intros _. split; [right; left; apply contains_str_in, E2|].
    split; intros C; apply contains_str_in in C; congruence.
  - split; [|reflexivity]. intros _. split; [right; right; apply contains_str_in, E3|].
    split; intros C; apply contains_str_in in C; congruence.
  - split; [discriminate|]. intros ([C|[C|C]] & _); apply contains_str_in in C; congruence.
Qed.

(** X1. [process_command] returns [True] on the utterances that hold an
    exit word and neither "hello" nor "what is the time", and returns
    [False] on every other utterance. *)
Theorem ends_exactly_on_exit_word (q : string) (now : datetime) (env : tts_env) (w : world) :
  (fst (process_command q now env w) = Return true
   <-> (has_exit_word q /\ ~ contains "hello" q
        /\ ~ contains "what is the time" q))
  /\ (fst (process_command q now env w) = Return false
      <-> ~ (has_exit_word q /\ ~ contains "hello" q
             /\ ~ contains "what is the time" q)).
Proof.
  destruct (process_command_run q now env w) as (R & _). rewrite R.
  pose proof (ends_iff_exit_word q now) as I.
  destruct (snd (chosen q now)); split; split; intros H.
  - apply I; reflexivity.
  - reflexivity.
  - discriminate.
  - elim H. apply I; reflexivity.
  - discriminate.
  - apply I in H. discriminate.
  - intros C. apply I in C. discriminate.
  - reflexivity.
Qed.

Lemma ends_exactly_on_exit_word_witness :
  fst (process_command "sing a song" noon working_tts started) = Return false
  /\ fst (process_command "please stop" noon working_tts started) = Return true.
Proof.
  split.
  - apply (ends_exactly_on_exit_word "sing a song" noon working_tts started).
    intros ([H|[H|H]] & _); apply contains_str_in in H; vm_compute in H;
      discriminate.
  - apply (ends_exactly_on_exit_word "please stop" noon working_tts started).
    split; [right; right; exists "please ", ""; reflexivity|].
    split; intros H; apply contains_str_in in H; vm_compute in H; discriminate.
Defined.

(** X2. The question about the time is tested before the exit words: an
    utterance with "what is the time" and without "hello" is answered
    with the time and does not end the loop, whatever else it holds. *)
Theorem time_wins_over_exit (q : string) (now : datetime) (env : tts_env) (w : world) :
  contains "what is the time" q -> ~ contains "hello" q ->
  fst (process_command q now env w) = Return false
  /\ spoken (out (snd (process_command q now env w)))
     = (spoken (out w)
        ++ [(("The time is " ++ strftime_I_M_p now)%string, VOICE_ID w)])%list.
Proof.
  intros T N. apply contains_str_in in T. apply not_contains_str_in in N.
  destruct (process_command_run q now env w) as (R & S & _).
  unfold chosen in R, S. rewrite N, T in R, S. split; assumption.
Qed.

Lemma time_wins_over_exit_witness :
  fst (process_command "what is the time to stop" noon working_tts started)
  = Return false.
Proof.
  apply (time_wins_over_exit "what is the time to stop" noon working_tts started).
  - exists "", " to stop". reflexivity.
  - intros H. apply contains_str_in in H. vm_compute in H. discriminate.
Defined.

(** X3. An utterance with none of the trigger substrings is answered with
    the apology and does not end the loop. *)
Theorem unknown_command_apology (q : string) (now : datetime) (env : tts_env) (w : world) :
  ~ contains "hello" q -> ~ contains "what is the time" q -> ~ has_exit_word q ->
  fst (process_command q now env w) = Return false
  /\ spoken (out (snd (process_command q now env w)))
     = (spoken (out w)
        ++ [("I'm sorry, I don't understand that yet.", VOICE_ID w)])%list.
Proof.
  intros N1 N2 N3.
  apply not_contains_str_in in N1. apply not_contains_str_in in N2.
  assert (E1 : str_in "exit" q = false)
    by (apply not_contains_str_in; intros C; apply N3; left; exact C).
  assert (E2 : str_in "quit" q = false)
    by (apply not_contains_str_in; intros C; apply N3; right; left; exact C).
  assert (E3 : str_in "stop" q = false)
    by (apply not_contains_str_in; intros C; apply N3; right; right; exact C).
  destruct (process_command_run q now env w) as (R & S & _).
  unfold chosen in R, S. rewrite N1, N2, E1, E2, E3 in R, S. split; assumption.
Qed.

Lemma unknown_command_apology_witness :
  fst (process_command "sing a song" noon working_tts started) = Return false
  /\ spoken (out (snd (process_command "sing a song" noon working_tts started)))
     = (spoken (out started)
        ++ [("I'm sorry, I don't understand that yet.", VOICE_ID started)])%list.
Proof.
  apply (unknown_command_apology "sing a song" noon working_tts started).
  - intros H. apply contains_str_in in H. vm_compute in H. discriminate.
  - intros H. apply contains_str_in in H. vm_compute in H. discriminate.
  - intros [H|[H|H]]; apply contains_str_in in H; vm_compute in H; discriminate.
Defined.

(** ** The recognizer *)

Lemma lower_char_idem (c : ascii) : lower_char (lower_char c) = lower_char c.
Proof.
  destruct c as [[] [] [] [] [] [] [] []]; vm_compute; reflexivity.
Qed.

Lemma lower_idem (s : string) : lower (lower s) = lower s.
Proof.
  induction s as [|c s IH]; simpl; [reflexivity|].
  rewrite lower_char_idem, IH. reflexivity.
Qed.

(** What [listen] ends with, read off its environment. *)
Lemma listen_outcome (env : listen_env) (w : world) :
  fst (listen env w)
  = match listen_escapes env with
    | Some e => Raise e
    | None =>
        match recognized env with
        | inr q => Return (lower q)
        | inl _ => Return EmptyString
        end
    end.
Proof.
  destruct w as [g s a o]. destruct env as [[e1|] [e2|] [[c m]|q]];
    try destruct c; reflexivity.
Qed.

(** X4. When the recognition service does not understand the audio or cannot
    be reached, [listen] returns the empty string. *)
Theorem recognition_failure_is_empty (env : listen_env) (w : world) (e : exn) :
  mic_open_err env = None -> capture_err env = None ->
  recognized env = inl e ->
  cls e = CUnknownValueError \/ cls e = CRequestError ->
  fst (listen env w) = Return EmptyString.
Proof.
  intros M C R K. rewrite listen_outcome. unfold listen_escapes, isinstance.
  rewrite M, C, R. destruct K as [-> | ->]; reflexivity.
Qed.

Lemma recognition_failure_is_empty_witness :
  fst (listen (mk_listen_env None None (inl (mk_exn CRequestError "offline")))
              started)
  = Return EmptyString.
Proof.
  apply (recognition_failure_is_empty
           (mk_listen_env None None (inl (mk_exn CRequestError "offline")))
           started (mk_exn CRequestError "offline"));
    try reflexivity.
  right; reflexivity.
Defined.

Lemma lower_char_not_capital (c : ascii) :
  ~ (65 <= nat_of_ascii (lower_char c) <= 90).
Proof.
  unfold lower_char, is_upper.
  destruct (Nat.leb_spec 65 (nat_of_ascii c)), (Nat.leb_spec (nat_of_ascii c) 90);
    cbn [andb]; try lia.
  rewrite nat_ascii_embedding by lia. lia.
Qed.

Lemma lower_char_ascii (c : ascii) :
  nat_of_ascii c < 128 -> nat_of_ascii (lower_char c) < 128.
Proof.
  intros H. unfold lower_char, is_upper.
  destruct (Nat.leb_spec 65 (nat_of_ascii c)), (Nat.leb_spec (nat_of_ascii c) 90);
    cbn [andb]; try lia.
  rewrite nat_ascii_embedding by lia. lia.
Qed.

Lemma lower_no_capital (t : string) : no_capital (lower t).
Proof.
  unfold no_capital. induction t as [|a t IH]; cbn; intros c H; [destruct H|].
  destruct H as [<-|H]; [apply lower_char_not_capital | apply IH, H].
Qed.

Lemma lower_all_ascii (t : string) : all_ascii t -> all_ascii (lower t).
Proof.
  unfold all_ascii. induction t as [|a t IH]; cbn; intros A c H; [destruct H|].
  destruct H as [<-|H].
  - apply lower_char_ascii, A. left; reflexivity.
  - apply IH; [|exact H]. intros d D. apply A. right; exact D.
Qed.

Lemma lower_length (t : string) : String.length (lower t) = String.length t.
Proof. induction t as [|a t IH]; cbn; [|rewrite IH]; reflexivity. Qed.

(** X5. For a transcript made of ASCII characters, what [listen] returns
    has no capital letter A to Z in it, is made of ASCII characters, and
    is as long as the transcript. *)
Theorem listen_returns_lower_case
  (env : listen_env) (w : world) (transcript q : string) :
  recognized env = inr transcript -> all_ascii transcript ->
  fst (listen env w) = Return q ->
  no_capital q /\ all_ascii q
  /\ String.length q = String.length transcript.
Proof.
  intros R A. rewrite listen_outcome, R.
  destruct (listen_escapes env); [discriminate|].
  intros H. inversion H; subst q.
  split; [apply lower_no_capital|].
  split; [apply lower_all_ascii, A | apply lower_length].
Qed.

Lemma listen_returns_lower_case_witness :
  no_capital "turn it up" /\ all_ascii "turn it up"
  /\ String.length "turn it up" = String.length "Turn IT up".
Proof.
  apply (listen_returns_lower_case
           (mk_listen_env None None (inr "Turn IT up")) started
           "Turn IT up" "turn it up").
  - reflexivity.
  - intros c H. simpl in H.
    repeat (destruct H as [<-|H]; [vm_compute; lia|]). destruct H.
  - reflexivity.
Defined.

(** X6. [listen] catches the two recognition errors only: an exception from
    the microphone, or any other exception of the recognition call,
    leaves [listen], and with it the main loop. *)
Theorem listen_error_leaves_loop
  (t : iter_env) (rest : list iter_env) (w : world) (e : exn) :
  listen_escapes (heard t) = Some e ->
  fst (listen (heard t) w) = Raise e
  /\ fst (main_loop (t :: rest) w) = Raise e
  /\ dispatched (out (snd (main_loop (t :: rest) w))) = dispatched (out w).
Proof.
  intros H.
  assert (L : fst (listen (heard t) w) = Raise e)
    by (rewrite listen_outcome, H; reflexivity).
  split; [exact L|].
  destruct (listen_spec (heard t) w) as (r & l & E & Low).
  rewrite E in L. cbn [fst] in L. subst r.
  assert (R : main_loop (t :: rest) w
              = (Raise e,
                 mk_world (VOICE_ID w) (voice_sample w) (alternative_tts w)
                          (out w ++ Call_listen :: l)%list)).
  { cbn [main_loop]. unfold bind at 1. rewrite E. reflexivity. }
  rewrite R. cbn [fst snd out]. split; [reflexivity|].
  change (Call_listen :: l)%list with ([Call_listen] ++ l)%list.
  rewrite !dispatched_app, (low_dispatched _ Low). cbn. apply app_nil_r.
Qed.

Lemma listen_error_leaves_loop_witness :
  fst (main_loop
         [mk_iter_env (mk_listen_env (Some (mk_exn COSError "no microphone"))
                                     None (inr "hello"))
                      noon working_tts]
         started)
  = Raise (mk_exn COSError "no microphone").
Proof.
  apply (listen_error_leaves_loop
           (mk_iter_env (mk_listen_env (Some (mk_exn COSError "no microphone"))
                                       None (inr "hello"))
                        noon working_tts)
           [] started (mk_exn COSError "no microphone")).
  reflexivity.
Defined.

(** ** The main loop *)

(** X7. Turns compose: the loop over two stretches of input is the loop over
    the first and, if that one is still running, the loop over the second
    from where the first left off.  Once the loop has been left, by
    [break] or by an exception, later input is not looked at. *)
Theorem main_loop_app (turns more : list iter_env) (w : world) :
  main_loop (turns ++ more) w
  = match main_loop turns w with
    | (Return Running, w1) => main_loop more w1
    | r => r
    end.
Proof.
  revert w. induction turns as [|t turns IH]; intros w; [reflexivity|].
  cbn [app main_loop]. unfold bind.
  destruct (listen (heard t) w) as [[cmd|e|] w1]; try reflexivity.
  destruct (negb (cmd =? "")); [|apply IH].
  destruct (process_command cmd (clock t) (reply t) w1) as [[[]|e|] w2];
    try reflexivity.
  apply IH.
Qed.

(** X8. The loop writes neither [VOICE_ID] nor the voice sample file. *)
Theorem main_loop_keeps_voice (turns : list iter_env) (w : world) :
  VOICE_ID (snd (main_loop turns w)) = VOICE_ID w
  /\ voice_sample (snd (main_loop turns w)) = voice_sample w.
Proof.
  destruct (main_loop_spec turns w) as (r & alt & l & E & _).
  rewrite E. split; reflexivity.
Qed.

Lemma chosen_farewell_text (q : string) (now : datetime) :
  fst (chosen q now) = "Goodbye!" <-> snd (chosen q now) = true.
Proof.
  unfold chosen.
  destruct (str_in "hello" q); [|destruct (str_in "what is the time" q);
    [|destruct (str_in "exit" q || str_in "quit" q || str_in "stop" q)]];
    cbn; split; intros H; try reflexivity; discriminate.
Qed.

Lemma main_loop_unfold (t : iter_env) (rest : list iter_env) (w : world) :
  main_loop (t :: rest) w
  = match listen (heard t) w with
    | (Return cmd, w1) =>
        if negb (cmd =? "") then
          match process_command cmd (clock t) (reply t) w1 with
          | (Return true, w2) => (Return Broke, w2)
          | (Return false, w2) => main_loop rest w2
          | (Raise e, w2) => (Raise e, w2)
          | (SysExit, w2) => (SysExit, w2)
          end
        else main_loop rest w1
    | (Raise e, w1) => (Raise e, w1)
    | (SysExit, w1) => (SysExit, w1)
    end.
Proof.
  cbn [main_loop]. unfold bind.
  destruct (listen (heard t) w) as [[cmd|e|] w1]; try reflexivity.
  destruct (negb (cmd =? "")); [|reflexivity].
  destruct (process_command cmd (clock t) (reply t) w1) as [[[]|e|] w2];
    reflexivity.
Qed.

(** One turn of the loop: one call of [listen], at most one utterance
    dispatched and answered, and the loop is left by [break] exactly when
    the answer is the farewell. *)
Lemma main_loop_turn (t : iter_env) (rest : list iter_env) (w : world) :
  exists w1 l,
    out w1 = (out w ++ l)%list /\ VOICE_ID w1 = VOICE_ID w
    /\ listens l = 1
    /\ length (dispatched l) = length (spoken l)
    /\ length (spoken l) <= 1
    /\ ((main_loop (t :: rest) w = main_loop rest w1
         /\ ~ In ("Goodbye!", VOICE_ID w) (spoken l))
        \/ (main_loop (t :: rest) w = (Return Broke, w1)
            /\ spoken l = [("Goodbye!", VOICE_ID w)])
        \/ (exists r, main_loop (t :: rest) w = (r, w1)
                      /\ (r = SysExit \/ exists e, r = Raise e)
                      /\ spoken l = [])).
Proof.
  rewrite main_loop_unfold.
  destruct (listen_spec (heard t) w) as (r0 & l0 & E0 & L0). rewrite E0.
  assert (Ls : listens (Call_listen :: l0) = 1).
  { change (Call_listen :: l0)%list with ([Call_listen] ++ l0)%list.
    rewrite listens_app, (low_listens _ L0). reflexivity. }
  assert (Sp : spoken (Call_listen :: l0) = []).
  { change (Call_listen :: l0)%list with ([Call_listen] ++ l0)%list.
    rewrite spoken_app, (low_spoken _ L0). reflexivity. }
  assert (Di : dispatched (Call_listen :: l0) = []).
  { change (Call_listen :: l0)%list with ([Call_listen] ++ l0)%list.
    rewrite dispatched_app, (low_dispatched _ L0). reflexivity. }
  destruct r0 as [cmd|e|].
  - destruct (cmd =? "") eqn:Q; cbn [negb].
    + exists (mk_world (VOICE_ID w) (voice_sample w) (alternative_tts w)
                (out w ++ Call_listen :: l0)%list),
        (Call_listen :: l0)%list. split; [reflexivity|].
      split; [reflexivity|]. rewrite Ls, Sp, Di.
      repeat split; [cbn; lia|]. left. split; [reflexivity|intros []].
    + match goal with
      | |- context [process_command ?c ?n ?e ?z] =>
          destruct (process_command_spec c n e z) as (alt1 & l1 & E1 & T1);
          rewrite E1
      end.
      cbn [VOICE_ID voice_sample out] in *.
      set (said := (Call_process_command cmd
                    :: Call_text_to_speech (fst (chosen cmd (clock t))) (VOICE_ID w)
                    :: l1)%list).
      assert (S1 : spoken said = [(fst (chosen cmd (clock t)), VOICE_ID w)]).
      { unfold said.
        change (Call_process_command cmd :: Call_text_to_speech ?a ?b :: l1)%list
          with ([Call_process_command cmd; Call_text_to_speech a b] ++ l1)%list.
        rewrite spoken_app, (tts_tail_spoken _ _ _ T1). reflexivity. }
      assert (D1 : dispatched said = [cmd]).
      { unfold said.
        change (Call_process_command cmd :: Call_text_to_speech ?a ?b :: l1)%list
          with ([Call_process_command cmd; Call_text_to_speech a b] ++ l1)%list.
        rewrite dispatched_app, (tts_tail_dispatched _ _ _ T1). reflexivity. }
      assert (N1 : listens said = 0).
      { unfold said.
        change (Call_process_command cmd :: Call_text_to_speech ?a ?b :: l1)%list
          with ([Call_process_command cmd; Call_text_to_speech a b] ++ l1)%list.
        rewrite listens_app, (tts_tail_listens _ _ _ T1). reflexivity. }
      clearbody said.
      exists (mk_world (VOICE_ID w) (voice_sample w) alt1
                       ((out w ++ Call_listen :: l0) ++ said)%list),
        ((Call_listen :: l0) ++ said)%list.
      split; [cbn [out]; rewrite <- app_assoc; reflexivity|].
      split; [reflexivity|].
      rewrite listens_app, spoken_app, dispatched_app, Ls, Sp, Di, S1, D1, N1.
      cbn [app length]. repeat split; [lia|].
      destruct (snd (chosen cmd (clock t))) eqn:B.
      * right; left. split; [reflexivity|].
        apply chosen_farewell_text in B. rewrite B. reflexivity.
      * left. split; [reflexivity|].
        intros [H|[]]. inversion H as [G].
        apply chosen_farewell_text in G. congruence.
  - exists (mk_world (VOICE_ID w) (voice_sample w) (alternative_tts w)
                (out w ++ Call_listen :: l0)%list),
      (Call_listen :: l0)%list. split; [reflexivity|].
    split; [reflexivity|]. rewrite Ls, Sp, Di.
    repeat split; [cbn; lia|]. right; right.
    eexists. split; [reflexivity|]. split; [right; eexists; reflexivity|reflexivity].
  - exists (mk_world (VOICE_ID w) (voice_sample w) (alternative_tts w)
                (out w ++ Call_listen :: l0)%list),
      (Call_listen :: l0)%list. split; [reflexivity|].
    split; [reflexivity|]. rewrite Ls, Sp, Di.
    repeat split; [cbn; lia|]. right; right.
    eexists. split; [reflexivity|]. split; [left; reflexivity|reflexivity].
Qed.

Lemma main_loop_trace (turns : list iter_env) (w : world) :
  exists l,
    out (snd (main_loop turns w)) = (out w ++ l)%list
    /\ listens l <= length turns
    /\ length (dispatched l) = length (spoken l)
    /\ length (spoken l) <= listens l
    /\ (fst (main_loop turns w) = Return Broke
        <-> In ("Goodbye!", VOICE_ID w) (spoken l)).
Proof.
  revert w. induction turns as [|t rest IH]; intros w.
  - exists []. cbn. rewrite app_nil_r.
    repeat split; try lia; try discriminate; try (intros []).
  - destruct (main_loop_turn t rest w)
      as (w1 & l1 & O1 & V1 & L1 & D1 & S1 & [[E N]|[[E G]|(r & E & K & G)]]).
    + destruct (IH w1) as (l2 & O2 & L2 & D2 & S2 & B2).
      exists (l1 ++ l2)%list. rewrite E, O2, O1, <- app_assoc.
      split; [reflexivity|].
      rewrite listens_app, dispatched_app, spoken_app, !length_app.
      cbn [length]. repeat split; try lia.
      * intros H. apply in_or_app. right. rewrite <- V1. apply B2, H.
      * intros H. apply in_app_or in H. destruct H as [H|H]; [elim (N H)|].
        apply B2. rewrite V1. exact H.
    + exists l1. rewrite E. cbn [fst snd]. split; [exact O1|].
      rewrite G in *. cbn [length] in *. repeat split; try lia.
      left; reflexivity.
    + exists l1. rewrite E. cbn [fst snd]. split; [exact O1|].
      rewrite G in *. cbn [length] in *. repeat split; try lia.
      * intros H. destruct K as [->|[e ->]]; discriminate.
      * intros [].
Qed.

(** X9. The loop is left by [break] exactly when the farewell has been said. *)
Theorem loop_left_on_farewell (turns : list iter_env) (w : world) :
  exists l,
    out (snd (main_loop turns w)) = (out w ++ l)%list
    /\ (fst (main_loop turns w) = Return Broke
        <-> In ("Goodbye!", VOICE_ID w) (spoken l)).
Proof.
  destruct (main_loop_trace turns w) as (l & O & _ & _ & _ & B).
  exists l. split; assumption.
Qed.

(** X10. In the loop every answer follows a call of [listen]: there are as
    many calls of [text_to_speech] as of [process_command], at most one
    for each call of [listen], and [listen] is called at most once for
    each turn. *)
Theorem loop_answers_bounded (turns : list iter_env) (w : world) :
  exists l,
    out (snd (main_loop turns w)) = (out w ++ l)%list
    /\ length (spoken l) = length (dispatched l)
    /\ length (dispatched l) <= listens l
    /\ listens l <= length turns.
Proof.
  destruct (main_loop_trace turns w) as (l & O & L & D & S & _).
  exists l. repeat split; try assumption; lia.
Qed.


(** ** The provisioner *)

Section ProvisionerCases.

#[local] Arguments Nat.leb : simpl never.
#[local] Arguments Nat.ltb : simpl never.
#[local] Arguments str_in : simpl never.
#[local] Arguments String.eqb : simpl never.
#[local] Arguments lookup : simpl never.
#[local] Arguments existsb : simpl never.

Ltac unfold_try :=
  unfold create_custom_voice_try;
  unfold http, emit, may_raise, print,
    raise_for_status, response_content, response_json, py_in, py_getitem,
    sys_exit, open_wb_voice_sample, open_rb_voice_sample,
    os_remove_voice_sample, exists_voice_sample, set_voice_sample,
    set_VOICE_ID, get_VOICE_ID, may_raise, raise, ret, bind.

(** The [try] block runs to its end only along one path: both requests
    answered without an error status, a JSON object with a [voice_id]
    field, and every file operation succeeding. *)
Lemma create_custom_voice_try_returns (env : voice_env) (w w1 : world) (v : pyval) :
  create_custom_voice_try env w = (Return v, w1) ->
  exists r0 r d,
    get_result env = HttpResp r0 /\ error_status r0 = false
    /\ post_result env = HttpResp r /\ error_status r = false
    /\ json_body r = inr (PyDict d) /\ lookup "voice_id" d = Some v
    /\ remove_err env = None
    /\ w1 = mk_world v false (alternative_tts w)
              (out w ++ [HttpGet IPFS_VOICE_URL;
                         HttpPostVoice upload_url VOICE_NAME;
                         PrintVal "Custom voice created with ID: " v])%list.
Proof.
  destruct w as [g0 s0 a0 o0].
  destruct env as [gr ow wr orb pr rm].
  unfold error_status. unfold_try.
  destruct gr as [e|[st c j]]; cbn; [discriminate|].
  destruct ((400 <=? st)%nat && (st <? 600)%nat) eqn:S0; cbn; [discriminate|].
  destruct ow as [e|]; cbn; [discriminate|].
  destruct c as [e|bytes]; cbn; [discriminate|].
  destruct wr as [e|]; cbn; [discriminate|].
  destruct orb as [e|]; cbn; [discriminate|].
  destruct pr as [e|[st' c' j']]; cbn; [discriminate|].
  destruct ((400 <=? st')%nat && (st' <? 600)%nat) eqn:S1; cbn; [discriminate|].
  destruct j' as [e|data]; cbn; [discriminate|].
  destruct data as [ | b | z | s | l | d ]; cbn; try discriminate.
  - destruct (str_in "voice_id" s); cbn; discriminate.
  - destruct (existsb _ l); cbn; discriminate.
  - destruct (lookup "voice_id" d) as [x|] eqn:L; cbn; [|discriminate].
    destruct rm as [e|]; cbn; [discriminate|].
    intros H. inversion H; subst.
    eexists _, _, _. repeat split; try reflexivity; try eassumption.
    cbn. rewrite <- !app_assoc. reflexivity.
Qed.

(** The [try] block ends with [exit()] only where the answer to the
    upload is JSON in which [voice_id] is not found; the sample file is
    then on disk. *)
Lemma create_custom_voice_try_exits (env : voice_env) (w w1 : world) :
  create_custom_voice_try env w = (SysExit, w1) ->
  exists r data,
    post_result env = HttpResp r /\ json_body r = inr data
    /\ (forall w', py_in "voice_id" data w' = (Return false, w'))
    /\ voice_sample w1 = true /\ VOICE_ID w1 = VOICE_ID w.
Proof.
  destruct w as [g0 s0 a0 o0].
  destruct env as [gr ow wr orb pr rm].
  unfold_try.
  destruct gr as [e|[st c j]]; cbn; [discriminate|].
  destruct ((400 <=? st)%nat && (st <? 600)%nat) eqn:S0; cbn; [discriminate|].
  destruct ow as [e|]; cbn; [discriminate|].
  destruct c as [e|bytes]; cbn; [discriminate|].
  destruct wr as [e|]; cbn; [discriminate|].
  destruct orb as [e|]; cbn; [discriminate|].
  destruct pr as [e|[st' c' j']]; cbn; [discriminate|].
  destruct ((400 <=? st')%nat && (st' <? 600)%nat) eqn:S1; cbn; [discriminate|].
  destruct j' as [e|data]; cbn; [discriminate|].
  destruct data as [ | b | z | s | l | d ]; cbn; try discriminate.
  - destruct (str_in "voice_id" s) eqn:I; cbn; [discriminate|].
    intros H. inversion H; subst. eexists _, _.
    repeat split; try reflexivity. intros w'. cbn. rewrite I. reflexivity.
  - destruct (existsb _ l) eqn:I; cbn; [discriminate|].
    intros H. inversion H; subst. eexists _, _.
    repeat split; try reflexivity. intros w'. cbn. rewrite I. reflexivity.
  - destruct (lookup "voice_id" d) as [x|] eqn:L; cbn.
    + destruct rm as [e|]; cbn; discriminate.
    + intros H. inversion H; subst. eexists _, _.
      repeat split; try reflexivity. intros w'. cbn. rewrite L. reflexivity.
Qed.

(** The path on which everything succeeds but the removal of the sample
    file. *)
Lemma create_custom_voice_try_removal_fails
  (r0 r : response) (bytes : string) (d : list (string * pyval)) (v : pyval)
  (e : exn) (w : world) :
  error_status r0 = false -> content r0 = inr bytes ->
  error_status r = false -> json_body r = inr (PyDict d) ->
  lookup "voice_id" d = Some v ->
  exists l,
    create_custom_voice_try
      (mk_voice_env (HttpResp r0) None None None (HttpResp r) (Some e)) w
    = (Raise e, mk_world v true (alternative_tts w) (out w ++ l)%list).
Proof.
  destruct w as [g0 s0 a0 o0]. destruct r0 as [st c j]. destruct r as [st' c' j'].
  unfold error_status. cbn [status_code content json_body].
  intros S0 -> S1 -> L. unfold_try. cbn.
  rewrite S0. cbn. rewrite S1. cbn. rewrite L. cbn.
  rewrite <- !app_assoc. eexists. reflexivity.
Qed.

End ProvisionerCases.

(** Whatever exception leaves the [try] block, one of the [except]
    clauses takes it, prints, and the function returns [None]. *)
Lemma create_custom_voice_except_spec (e : exn) (w1 : world) :
  exists s,
    match find (fun h => isinstance e (fst h)) create_custom_voice_except with
    | Some h => snd h e w1
    | None => (Raise e, w1)
    end
    = (Return PyNone,
       mk_world (VOICE_ID w1) (voice_sample w1) (alternative_tts w1)
                (out w1 ++ [Print s])%list).
Proof.
  destruct e as [c m]; destruct c;
    cbv [create_custom_voice_except find fst snd isinstance subclass cls
         exn_class_eqb bind print emit ret msg];
    eexists; reflexivity.
Qed.

Lemma create_custom_voice_unfold (env : voice_env) (w : world) :
  create_custom_voice env w
  = match create_custom_voice_try env
            (mk_world (VOICE_ID w) (voice_sample w) (alternative_tts w)
                      (out w ++ [Call_create_custom_voice])%list) with
    | (Raise e, w1) =>
        match find (fun h => isinstance e (fst h)) create_custom_voice_except with
        | Some h => snd h e w1
        | None => (Raise e, w1)
        end
    | r => r
    end.
Proof. reflexivity. Qed.

(** X11. No exception leaves [create_custom_voice]: it returns or it ends the
    process, and it ends the process only where the answer to the upload
    is JSON in which [voice_id] is not found, leaving the sample file on
    disk. *)
Theorem create_custom_voice_returns_or_exits (env : voice_env) (w : world) :
  (fst (create_custom_voice env w) = SysExit
   \/ exists v, fst (create_custom_voice env w) = Return v)
  /\ (fst (create_custom_voice env w) = SysExit ->
      voice_sample (snd (create_custom_voice env w)) = true
      /\ exists r data,
           post_result env = HttpResp r /\ json_body r = inr data
           /\ forall w', py_in "voice_id" data w' = (Return false, w')).
Proof.
  rewrite create_custom_voice_unfold.
  destruct (create_custom_voice_try env _) as [[v|e|] w1] eqn:T.
  - split; [right; exists v; reflexivity | discriminate].
  - destruct (create_custom_voice_except_spec e w1) as (s & ->).
    split; [right; exists PyNone; reflexivity | discriminate].
  - split; [left; reflexivity|]. intros _.
    destruct (create_custom_voice_try_exits _ _ _ T) as (r & data & P & J & I & S & _).
    split; [exact S|]. exists r, data. repeat split; assumption.
Qed.

Lemma create_custom_voice_returns_or_exits_witness :
  voice_sample (snd (create_custom_voice upload_without_voice_id
                                         (initial false false))) = true
  /\ exists r data,
       post_result upload_without_voice_id = HttpResp r /\ json_body r = inr data
       /\ forall w', py_in "voice_id" data w' = (Return false, w').
Proof.
  apply (create_custom_voice_returns_or_exits upload_without_voice_id
                                              (initial false false)).
  reflexivity.
Defined.

(** X12. An identifier returned by [create_custom_voice] is the [voice_id]
    field of the provider's answer: both requests were answered without
    an error status, the identifier is also in [VOICE_ID], the sample
    file has been removed, and the requests made are the download and
    the upload, in this order. *)
Theorem provisioned_voice_from_response (env : voice_env) (w : world) (v : pyval) :
  fst (create_custom_voice env w) = Return v -> v <> PyNone ->
  (exists r0 r d,
      get_result env = HttpResp r0 /\ error_status r0 = false
      /\ post_result env = HttpResp r /\ error_status r = false
      /\ json_body r = inr (PyDict d) /\ lookup "voice_id" d = Some v)
  /\ VOICE_ID (snd (create_custom_voice env w)) = v
  /\ voice_sample (snd (create_custom_voice env w)) = false
  /\ requests (out (snd (create_custom_voice env w)))
     = (requests (out w)
        ++ [HttpGet IPFS_VOICE_URL; HttpPostVoice upload_url VOICE_NAME])%list.
Proof.
  rewrite create_custom_voice_unfold.
  destruct (create_custom_voice_try env _) as [[u|e|] w1] eqn:T; cbn [fst snd].
  - intros H N. inversion H; subst u.
    destruct (create_custom_voice_try_returns _ _ _ _ T)
      as (r0 & r & d & G & S0 & P & S1 & J & L & _ & ->).
    split; [exists r0, r, d; repeat split; assumption|].
    cbn [VOICE_ID voice_sample out]. repeat split.
    rewrite !requests_app. cbn. rewrite app_nil_r. reflexivity.
  - destruct (create_custom_voice_except_spec e w1) as (s & ->).
    cbn [fst]. intros H N. inversion H; subst. elim N; reflexivity.
  - discriminate.
Qed.

Lemma provisioned_voice_from_response_witness :
  VOICE_ID (snd (create_custom_voice upload_accepted (initial false false)))
  = PyStr "v1"
  /\ voice_sample (snd (create_custom_voice upload_accepted (initial false false)))
     = false.
Proof.
  destruct (provisioned_voice_from_response upload_accepted (initial false false)
              (PyStr "v1") eq_refl) as (_ & A & B & _).
  - discriminate.
  - split; [exact A|exact B].
Defined.

(** X13. When the download of the sample fails, [create_custom_voice] returns
    [None] having made that one request only: nothing is uploaded, no
    file is written, [VOICE_ID] is not touched. *)
Theorem download_failure_stops_provisioning (env : voice_env) (w : world) :
  download_failed env ->
  fst (create_custom_voice env w) = Return PyNone
  /\ requests (out (snd (create_custom_voice env w)))
     = (requests (out w) ++ [HttpGet IPFS_VOICE_URL])%list
  /\ voice_sample (snd (create_custom_voice env w)) = voice_sample w
  /\ VOICE_ID (snd (create_custom_voice env w)) = VOICE_ID w.
Proof.
  intros D. rewrite create_custom_voice_unfold.
  set (w0 := mk_world _ _ _ _).
  assert (T : exists e,
             create_custom_voice_try env w0
             = (Raise e,
                mk_world (VOICE_ID w) (voice_sample w) (alternative_tts w)
                         (out w ++ [Call_create_custom_voice;
                                    HttpGet IPFS_VOICE_URL])%list)).
  { unfold create_custom_voice_try, w0.
    destruct D as [[e G]|(r & G & S)]; rewrite G.
    - exists e. cbv [http bind emit raise VOICE_ID voice_sample alternative_tts out].
      rewrite <- app_assoc. reflexivity.
    - eexists. unfold bind at 1.
      cbv [http bind emit raise ret VOICE_ID voice_sample alternative_tts out].
      unfold raise_for_status. unfold error_status in S. rewrite S.
      unfold raise. rewrite <- app_assoc. reflexivity. }
  destruct T as (e & ->).
  destruct (create_custom_voice_except_spec e
              (mk_world (VOICE_ID w) (voice_sample w) (alternative_tts w)
                        (out w ++ [Call_create_custom_voice;
                                   HttpGet IPFS_VOICE_URL])%list))
    as (s & ->).
  cbn [fst snd VOICE_ID voice_sample out]. repeat split.
  rewrite !requests_app. cbn. rewrite app_nil_r. reflexivity.
Qed.

Lemma download_failure_stops_provisioning_witness :
  fst (create_custom_voice
         (mk_voice_env (HttpResp (mk_response 404 (inr "") no_json))
                       None None None (HttpRaise (mk_exn CException "unused")) None)
         (initial false false))
  = Return PyNone.
Proof.
  apply (download_failure_stops_provisioning
           (mk_voice_env (HttpResp (mk_response 404 (inr "") no_json))
                         None None None (HttpRaise (mk_exn CException "unused")) None)
           (initial false false)).
  right. eexists. split; reflexivity.
Defined.

(** X14. When the provider has created the voice but the sample file cannot
    be removed, [create_custom_voice] returns [None]: the identifier
    stays in [VOICE_ID] without being returned, the file stays on disk,
    and the script, which tests the returned value, ends. *)
Theorem removal_failure_discards_voice
  (r0 r : response) (bytes : string) (d : list (string * pyval)) (v : pyval)
  (e : exn) (key : string) (greet : tts_env) (inputs : list iter_env)
  (sample alt : bool) :
  error_status r0 = false -> content r0 = inr bytes ->
  error_status r = false -> json_body r = inr (PyDict d) ->
  lookup "voice_id" d = Some v ->
  fst (create_custom_voice
         (mk_voice_env (HttpResp r0) None None None (HttpResp r) (Some e))
         (initial sample alt)) = Return PyNone
  /\ VOICE_ID (snd (create_custom_voice
                      (mk_voice_env (HttpResp r0) None None None (HttpResp r) (Some e))
                      (initial sample alt))) = v
  /\ voice_sample (snd (create_custom_voice
                          (mk_voice_env (HttpResp r0) None None None (HttpResp r)
                                        (Some e))
                          (initial sample alt))) = true
  /\ fst (main (mk_main_env (Some key)
                            (mk_voice_env (HttpResp r0) None None None (HttpResp r)
                                          (Some e))
                            greet inputs)
               (initial sample alt)) = SysExit.
Proof.
  intros S0 C S1 J L.
  set (env := mk_voice_env _ _ _ _ _ _).
  assert (R : fst (create_custom_voice env (initial sample alt)) = Return PyNone
              /\ VOICE_ID (snd (create_custom_voice env (initial sample alt))) = v
              /\ voice_sample (snd (create_custom_voice env (initial sample alt)))
                 = true).
  { rewrite create_custom_voice_unfold. unfold env.
    destruct (create_custom_voice_try_removal_fails r0 r bytes d v e
                (mk_world (VOICE_ID (initial sample alt))
                          (voice_sample (initial sample alt))
                          (alternative_tts (initial sample alt))
                          (out (initial sample alt) ++ [Call_create_custom_voice])%list)
                S0 C S1 J L) as (l & ->).
    match goal with
    | |- context [find _ _] =>
        destruct (create_custom_voice_except_spec e
                    (mk_world v true alt
                       (([] ++ [Call_create_custom_voice]) ++ l)%list)) as (s & E)
    end.
    cbn [initial VOICE_ID voice_sample alternative_tts out] in *.
    rewrite E. repeat split. }
  destruct R as (R1 & R2 & R3). repeat split; try assumption.
  apply (failed_run_stops (mk_main_env (Some key) env greet inputs) sample alt).
  intros u w' H. cbn [provisioning] in H. rewrite H in R1. cbn in R1.
  inversion R1. reflexivity.
Qed.

Lemma removal_failure_discards_voice_witness :
  fst (main (mk_main_env (Some "key")
               (mk_voice_env sample_download None None None
                  (HttpResp (mk_response 200 (inr "")
                               (inr (PyDict [("voice_id", PyStr "v1")]))))
                  (Some (mk_exn COSError "busy")))
               working_tts [])
            (initial false false)) = SysExit.
Proof.
  apply (removal_failure_discards_voice
           (mk_response 200 (inr "sample bytes") no_json)
           (mk_response 200 (inr "") (inr (PyDict [("voice_id", PyStr "v1")])))
           "sample bytes" [("voice_id", PyStr "v1")] (PyStr "v1")
           (mk_exn COSError "busy") "key" working_tts [] false false);
    reflexivity.
Defined.


(** ** The synthesizer and the player *)

(** X15. With any voice identifier other than [None], the empty string
    included, [text_to_speech] makes exactly one request, for that voice
    and that text, and returns whatever the request meets. *)
Theorem text_to_speech_one_request
  (text : string) (v : pyval) (env : tts_env) (w : world) :
  is_None v = false ->
  fst (text_to_speech text v env w) = Return tt
  /\ requests (out (snd (text_to_speech text v env w)))
     = (requests (out w) ++ [HttpPostTTS v text])%list.
Proof.
  intros N.
  destruct (text_to_speech_spec text v env w) as (alt & l & E & T).
  rewrite E. cbn [fst snd out]. split; [reflexivity|].
  destruct T as [[N' _]|[_ (l' & -> & L)]]; [congruence|].
  change (Call_text_to_speech text v :: HttpPostTTS v text :: l')%list
    with ([Call_text_to_speech text v; HttpPostTTS v text] ++ l')%list.
  rewrite !requests_app, (low_requests _ L). cbn. rewrite ?app_nil_r. reflexivity.
Qed.

Lemma text_to_speech_one_request_witness :
  requests (out (snd (text_to_speech "hi" (PyStr "") failing_tts started)))
  = (requests (out started) ++ [HttpPostTTS (PyStr "") "hi"])%list.
Proof.
  apply (text_to_speech_one_request "hi" (PyStr "") failing_tts started).
  reflexivity.
Defined.

Lemma use_pyttsx3_plays (audio : string) (env : pyttsx3_env) (w : world) :
  plays (out (snd (use_pyttsx3 audio env w))) = plays (out w).
Proof.
  destruct w as [v s a o].
  destruct env as [[e1|] [e2|] [e3|] [e4|] [e5|] [e6|]];
    cbv [use_pyttsx3 try_except bind emit may_raise raise ret print
         set_alternative_tts exists_alternative_tts find fst snd
         init_err save_err run_err alt_open_err alt_write_err alt_remove_err
         VOICE_ID voice_sample alternative_tts out isinstance subclass];
    unfold plays; rewrite ?filter_app, ?length_app; cbn; lia.
Qed.

Lemma play_audio_from_stream_plays (audio : string) (env : play_env) (w : world) :
  plays (out (snd (play_audio_from_stream audio env w))) = plays (out w) + 1.
Proof.
  destruct w as [v s a o]. destruct env as [t p f].
  unfold play_audio_from_stream.
  destruct t as [[c m]|], p as [[c' m']|]; try destruct c; try destruct c';
    cbv [try_except bind emit may_raise raise ret print find fst snd
         tmpfile_err playsound_err fallback cls msg
         VOICE_ID voice_sample alternative_tts out isinstance subclass
         exn_class_eqb];
    try match goal with
        | |- context [use_pyttsx3 ?x ?y ?z] =>
            pose proof (use_pyttsx3_plays x y z) as P;
            destruct (use_pyttsx3 x y z) as [r2 [g2 s2 a2 o2]];
            cbn [fst snd out] in P |- *; rewrite P
        end;
    unfold plays; cbn [out]; rewrite ?filter_app, ?length_app; cbn; lia.
Qed.

(** X16. Audio is handed to the player exactly when the synthesis request is
    answered without an error status and its body can be read; with a
    4xx or 5xx status, or a failed request, [play_audio_from_stream] is
    not called. *)
Theorem playback_only_with_audio
  (text : string) (v : pyval) (env : tts_env) (w : world) :
  is_None v = false ->
  plays (out (snd (text_to_speech text v env w)))
  = plays (out w) + (if audio_received env then 1 else 0).
Proof.
  intros N. destruct w as [g s a o]. destruct env as [res pl].
  unfold text_to_speech, audio_received, error_status. rewrite N.
  cbn [tts_result].
  destruct res as [[c m]|r].
  - destruct c;
      cbv [try_except bind emit http raise ret print find fst snd
           tts_result player cls msg
           VOICE_ID voice_sample alternative_tts out isinstance subclass
           exn_class_eqb];
      unfold plays; rewrite ?filter_app, ?length_app; cbn; lia.
  - cbv [try_except bind emit http raise ret print find fst snd
         tts_result player raise_for_status
         VOICE_ID voice_sample alternative_tts out].
    destruct ((400 <=? status_code r)%nat && (status_code r <? 600)%nat).
    + cbv [isinstance subclass cls find fst snd bind emit
           VOICE_ID voice_sample alternative_tts out].
      unfold plays; rewrite ?filter_app, ?length_app; cbn; lia.
    + unfold response_content. destruct (content r) as [[c m]|audio].
      * destruct c;
          cbv [isinstance subclass cls find fst snd bind emit raise msg
               exn_class_eqb negb andb
               VOICE_ID voice_sample alternative_tts out];
          unfold plays; rewrite ?filter_app, ?length_app; cbn; lia.
      * cbv [ret negb andb].
        match goal with
        | |- context [play_audio_from_stream ?x ?y ?z] =>
            pose proof (play_audio_from_stream_plays x y z) as P;
            destruct (play_audio_from_stream_spec x y z) as (alt & l & E & _ & _);
            rewrite E in P |- *
        end.
        cbn [fst snd out VOICE_ID voice_sample] in P |- *. rewrite P.
        unfold plays; rewrite ?filter_app, ?length_app; cbn; lia.
Qed.

Lemma playback_only_with_audio_witness :
  plays (out (snd (text_to_speech "hi" (PyStr "v1") failing_tts started)))
  = plays (out started) + 0.
Proof.
  apply (playback_only_with_audio "hi" (PyStr "v1") failing_tts started).
  reflexivity.
Defined.

(** X17. The fallback is for the player's own exception only: when the [try]
    block of [play_audio_from_stream] ends without exception, or with an
    exception of another class, [use_pyttsx3] is not called. *)
Theorem fallback_only_for_player_error (audio : string) (env : play_env) (w : world) :
  (forall e, primary_exn env = Some e -> cls e <> CPlaysoundException) ->
  fallbacks (out (snd (play_audio_from_stream audio env w))) = fallbacks (out w).
Proof.
  intros H.
  destruct (play_audio_from_stream_spec audio env w) as (alt & l & E & _ & F).
  rewrite E. cbn [snd out].
  change (Call_play_audio_from_stream :: l)%list
    with ([Call_play_audio_from_stream] ++ l)%list.
  rewrite !fallbacks_app, F. unfold expected_fallbacks.
  destruct (primary_exn env) as [e|] eqn:P; [|cbn; lia].
  specialize (H e eq_refl). unfold isinstance.
  destruct (cls e); cbn; try lia. elim H; reflexivity.
Qed.

Lemma fallback_only_for_player_error_witness :
  fallbacks (out (snd (play_audio_from_stream "mp3 bytes"
                         (mk_play_env (Some (mk_exn COSError "disk full")) None
                                      silent_fallback)
                         started)))
  = fallbacks (out started).
Proof.
  apply (fallback_only_for_player_error "mp3 bytes"
           (mk_play_env (Some (mk_exn COSError "disk full")) None silent_fallback)
           started).
  intros e H. inversion H; subst. discriminate.
Defined.


(** ** The whole run *)

(** X18. Without an API key in the environment (the variable unset or empty)
    the script prints its complaint and ends at once: no request is made
    and nothing else happens. *)
Theorem missing_key_exits (env : main_env) (sample alt : bool) :
  ELEVENLABS_API_KEY env = None \/ ELEVENLABS_API_KEY env = Some EmptyString ->
  main env (initial sample alt)
  = (SysExit,
     mk_world PyNone sample alt
       [Print "Error: ElevenLabs API key not found in environment variables."]).
Proof.
  intros [H|H]; unfold main; rewrite H; reflexivity.
Qed.

Lemma missing_key_exits_witness :
  main (mk_main_env None upload_accepted working_tts []) (initial false false)
  = (SysExit,
     mk_world PyNone false false
       [Print "Error: ElevenLabs API key not found in environment variables."]).
Proof.
  apply (missing_key_exits (mk_main_env None upload_accepted working_tts [])
                           false false).
  left; reflexivity.
Defined.

(** With a key and a provisioned voice, the script is the start greeting
    followed by the loop. *)
Lemma main_after_provisioning
  (env : main_env) (sample alt : bool) (v : pyval) (w1 : world) :
  key_missing (ELEVENLABS_API_KEY env) = false ->
  create_custom_voice (provisioning env) (initial sample alt) = (Return v, w1) ->
  truthy v = true ->
  VOICE_ID w1 = v
  /\ spoken (out w1) = []
  /\ main env (initial sample alt)
     = main_loop (turns env)
                 (snd (text_to_speech START_GREETING v (greeting env) w1)).
Proof.
  intros K C T.
  destruct (create_custom_voice_spec (provisioning env) (initial sample alt))
    as (r & g & s & l & E & P & R & _).
  rewrite E in C. inversion C; subst r w1. clear C.
  destruct R as [R|(u & R & G)]; [discriminate|].
  inversion R; subst u. destruct (G T) as [-> ->].
  cbn [VOICE_ID out initial app]. split; [reflexivity|]. split.
  { change (Call_create_custom_voice :: l)%list
      with ([Call_create_custom_voice] ++ l)%list.
    rewrite spoken_app, (provisioning_spoken _ P). reflexivity. }
  unfold main. rewrite K.
  unfold bind at 1. unfold ret at 1. unfold bind at 1.
  unfold get_VOICE_ID at 1. cbn [initial VOICE_ID truthy negb].
  unfold bind at 1. unfold bind at 1. rewrite E.
  unfold bind at 1. unfold set_VOICE_ID at 1.
  cbn [VOICE_ID voice_sample alternative_tts out initial app].
  rewrite T. cbn [negb]. unfold ret at 1. unfold bind at 1.
  unfold get_VOICE_ID at 1. cbn [VOICE_ID]. unfold bind at 1.
  fold START_GREETING.
  destruct (text_to_speech_spec START_GREETING v (greeting env)
              (mk_world v false alt (Call_create_custom_voice :: l)%list))
    as (alt1 & l1 & E1 & _).
  rewrite E1. reflexivity.
Qed.

(** X19. A run that gets past provisioning says the start greeting first, says
    everything with the provisioned voice, and ends by [break] exactly
    when the farewell has been said. *)
Theorem run_greets_then_loops
  (env : main_env) (sample alt : bool) (v : pyval) (w1 : world) :
  key_missing (ELEVENLABS_API_KEY env) = false ->
  create_custom_voice (provisioning env) (initial sample alt) = (Return v, w1) ->
  truthy v = true ->
  exists l,
    spoken (out (snd (main env (initial sample alt)))) = (START_GREETING, v) :: l
    /\ (forall t u, In (t, u) l -> u = v)
    /\ (fst (main env (initial sample alt)) = Return Broke
        <-> In ("Goodbye!", v) l).
Proof.
  intros K C T.
  destruct (main_after_provisioning env sample alt v w1 K C T) as (V & S & ->).
  clear C. destruct w1 as [g1 s1 a1 o1]. cbn [VOICE_ID out] in V, S. subst g1.
  destruct (text_to_speech_spec START_GREETING v (greeting env)
              (mk_world v s1 a1 o1))
    as (alt1 & l1 & E1 & T1).
  rewrite E1. cbn [snd].
  set (w2 := mk_world _ _ _ _).
  destruct (main_loop_trace (turns env) w2) as (l & O & _ & _ & _ & B).
  destruct (main_loop_spec (turns env) w2) as (r & alt2 & l' & E & A & _).
  assert (l' = l).
  { rewrite E in O. cbn [snd out] in O. apply app_inv_head in O. exact O. }
  subst l'. clear E.
  exists (spoken l). rewrite O. unfold w2 at 1. cbn [out].
  change (Call_text_to_speech START_GREETING v :: l1)%list
    with ([Call_text_to_speech START_GREETING v] ++ l1)%list.
  rewrite !spoken_app, S, (tts_tail_spoken _ _ _ T1). cbn [app spoken flat_map].
  split; [reflexivity|].
  unfold w2 in A, B. cbn [VOICE_ID] in A, B.
  split; [exact A | exact B].
Qed.

Lemma run_greets_then_loops_witness :
  exists l,
    spoken (out (snd (main (mk_main_env (Some "key") upload_accepted working_tts [])
                           (initial false false))))
    = (START_GREETING, PyStr "v1") :: l
    /\ (forall t u, In (t, u) l -> u = PyStr "v1")
    /\ (fst (main (mk_main_env (Some "key") upload_accepted working_tts [])
                  (initial false false)) = Return Broke
        <-> In ("Goodbye!", PyStr "v1") l).
Proof.
  apply (run_greets_then_loops
           (mk_main_env (Some "key") upload_accepted working_tts [])
           false false (PyStr "v1")
           (snd (create_custom_voice upload_accepted (initial false false))));
    reflexivity.
Defined.


(** ** The spoken time *)

Lemma digit_inj (a b : nat) : a < 10 -> b < 10 -> digit a = digit b -> a = b.
Proof.
  intros Ha Hb H. unfold digit in H.
  apply (f_equal nat_of_ascii) in H.
  rewrite !nat_ascii_embedding in H by lia. lia.
Qed.

Lemma two_digits_inj (n m : nat) :
  n < 100 -> m < 100 -> two_digits n = two_digits m -> n = m.
Proof.
  intros Hn Hm H. unfold two_digits in H.
  assert (H1 : digit (n / 10) = digit (m / 10)) by congruence.
  assert (H2 : digit (n mod 10) = digit (m mod 10)) by congruence.
  apply digit_inj in H1;
    [|apply Nat.Div0.div_lt_upper_bound; lia
     |apply Nat.Div0.div_lt_upper_bound; lia].
  apply digit_inj in H2; [|apply Nat.mod_upper_bound; lia
                          |apply Nat.mod_upper_bound; lia].
  rewrite (Nat.div_mod_eq n 10), (Nat.div_mod_eq m 10), H1, H2. reflexivity.
Qed.

Lemma hour_field_bound (h : nat) :
  (if (h mod 12 =? 0)%nat then 12 else h mod 12) < 100.
Proof.
  pose proof (Nat.mod_upper_bound h 12).
  destruct (h mod 12 =? 0)%nat; lia.
Qed.

Lemma hour_field_inj (h1 h2 : nat) :
  h1 < 24 -> h2 < 24 ->
  (if (h1 mod 12 =? 0)%nat then 12 else h1 mod 12)
  = (if (h2 mod 12 =? 0)%nat then 12 else h2 mod 12) ->
  (h1 <? 12)%nat = (h2 <? 12)%nat ->
  h1 = h2.
Proof.
  intros H1 H2 E P.
  rewrite (mod_12_below_24 h1 H1), (mod_12_below_24 h2 H2) in E.
  rewrite <- P in E.
  destruct (h1 <? 12)%nat eqn:L1; symmetry in P;
    [apply Nat.ltb_lt in L1, P | apply Nat.ltb_ge in L1, P].
  - destruct (Nat.eqb_spec h1 0), (Nat.eqb_spec h2 0); lia.
  - destruct (Nat.eqb_spec (h1 - 12) 0), (Nat.eqb_spec (h2 - 12) 0); lia.
Qed.

(** X20. The time said determines the time of day: two different times of
    day are never announced with the same words. *)
Theorem strftime_I_M_p_inj (t1 t2 : datetime) :
  valid_time t1 -> valid_time t2 ->
  strftime_I_M_p t1 = strftime_I_M_p t2 -> t1 = t2.
Proof.
  destruct t1 as [h1 m1], t2 as [h2 m2]. unfold valid_time, strftime_I_M_p.
  cbn [hour minute]. intros [Hh1 Hm1] [Hh2 Hm2] H.
  pose proof (hour_field_bound h1) as B1.
  pose proof (hour_field_bound h2) as B2.
  pose proof (hour_field_inj h1 h2 Hh1 Hh2) as K.
  set (i1 := if (h1 mod 12 =? 0)%nat then 12 else h1 mod 12) in *.
  set (i2 := if (h2 mod 12 =? 0)%nat then 12 else h2 mod 12) in *.
  clearbody i1 i2.
  assert (I : two_digits i1 = two_digits i2
              /\ two_digits m1 = two_digits m2
              /\ (h1 <? 12)%nat = (h2 <? 12)%nat).
  { unfold two_digits in *. cbn [append] in H.
    repeat split; try congruence.
    destruct (h1 <? 12)%nat, (h2 <? 12)%nat; try reflexivity;
      exfalso; congruence. }
  destruct I as (I1 & I2 & I3).
  apply two_digits_inj in I1; [|assumption|assumption].
  apply two_digits_inj in I2; [|lia|lia].
  subst m2. f_equal. apply K; assumption.
Qed.

Lemma strftime_I_M_p_inj_witness :
  mk_datetime 15 7 = mk_datetime 15 7.
Proof.
  apply (strftime_I_M_p_inj (mk_datetime 15 7) (mk_datetime 15 7));
    [split; simpl; lia | split; simpl; lia | reflexivity].
Defined.
